(** * Retrieval-augmented chat orchestrators

    A shallow embedding of the two [run_until_final_call] coroutines of
    [approaches/chatreadretrieveread.py] (text variant) and
    [approaches/chatreadretrievereadvision.py] (vision variant), together
    with the properties of the pipeline that the specification states.

    The coroutines await four external collaborators (chat completion,
    embedding, search, image fetch).  They are embedded as finite trees of
    awaited calls ([Coro]); an interpreter [run] plays such a tree against an
    environment of collaborators and records the calls that were made. *)

From Stdlib Require Import ZArith QArith String List Bool.
From stdpp Require Import base option strings gmap list.

Local Open Scope string_scope.
Local Open Scope Z_scope.
Local Set Warnings "-register-all".

(** ** Python values carried by [overrides] and [auth_claims]

    [overrides : dict[str, Any]] is decoded from the JSON body of a request.
    The scalars and arrays of JSON are represented; floats are rationals. *)

Inductive PyVal : Type :=
| PyNone
| PyBool (b : bool)
| PyInt (z : Z)
| PyFloat (q : Q)
| PyStr (s : string)
| PyList (items : list PyVal).

(** Numeric view used by Python's [==] across [bool], [int] and [float]. *)
Definition py_number (v : PyVal) : option Q :=
  match v with
  | PyBool b => Some (inject_Z (if b then 1 else 0))
  | PyInt z => Some (inject_Z z)
  | PyFloat q => Some q
  | _ => None
  end.

(** Python's [a == b]. *)
Fixpoint py_eqb (a b : PyVal) : bool :=
  match a, b with
  | PyNone, PyNone => true
  | PyStr s, PyStr t => String.eqb s t
  | PyList l, PyList m =>
      (fix all2 (l : list PyVal) (m : list PyVal) : bool :=
         match l, m with
         | [], [] => true
         | x :: l', y :: m' => py_eqb x y && all2 l' m'
         | _, _ => false
         end) l m
  | _, _ =>
      match py_number a, py_number b with
      | Some p, Some q => Qeq_bool p q
      | _, _ => false
      end
  end.

(** Python's [v in candidates] for a list literal. *)
Definition py_in (v : PyVal) (candidates : list PyVal) : bool :=
  existsb (py_eqb v) candidates.

(** Python's truth value of an object ([if v], [True if v else False]). *)
Definition py_truthy (v : PyVal) : bool :=
  match v with
  | PyNone => false
  | PyBool b => b
  | PyInt z => negb (z =? 0)
  | PyFloat q => negb (Qeq_bool q 0)
  | PyStr s => negb (String.eqb s EmptyString)
  | PyList l => match l with [] => false | _ => true end
  end.

(** Truthiness of a [str]. *)
Definition str_truthy (s : string) : bool := negb (String.eqb s EmptyString).

(** [d.get(key)]: the stored value, [None] when the key is missing. *)
Definition dict_get (d : gmap string PyVal) (key : string) : PyVal :=
  default PyNone (d !! key).

(** [d.get(key, fallback)]: the fallback only replaces a missing key. *)
Definition dict_get_or (d : gmap string PyVal) (key : string) (fallback : PyVal) : PyVal :=
  default fallback (d !! key).

(** The newline character. *)
Definition nl : string := String (Ascii.ascii_of_nat 10) EmptyString.

(** The literal ["\n\nSources:\n"]. *)
Definition sources_header : string := nl ++ nl ++ "Sources:" ++ nl.

(** [sep.join(parts)] *)
Fixpoint join (sep : string) (parts : list string) : string :=
  match parts with
  | [] => EmptyString
  | [p] => p
  | p :: rest => p ++ sep ++ join sep rest
  end.

(** ** Conversation messages

    [ChatCompletionMessageParam]: a role and a content that is either a plain
    string or a list of typed parts. *)

Inductive ContentPart : Type :=
| TextPart (text : string)           (* {"text": text, "type": "text"} *)
| ImagePart (image_url : string).    (* {"image_url": url, "type": "image_url"} *)

Inductive Content : Type :=
| ContentStr (s : string)
| ContentParts (parts : list ContentPart).

Record Message : Type := mkMessage {
  role : string;
  content : Content
}.

(** [messages[:-1]] *)
Definition all_but_last (messages : list Message) : list Message :=
  removelast messages.

(** ** Search results

    Modelled from the spec: the [Document] class of [approaches/approach.py]
    is not part of the sources; the fields are those of the specification's
    SearchResult. *)
Record Document : Type := mkDocument {
  citation_key : string;
  doc_content : string;
  caption : option string;
  image_reference : option string
}.

(** A query vector as returned by the embedding collaborator. *)
Record VectorQuery : Type := mkVectorQuery {
  vector : list Q;
  fields : string
}.

(** The reply of the model to the query-rewriting call. *)
Record ChatCompletion : Type := mkChatCompletion {
  completion_content : option string;
  completion_tool_arguments : list string
}.

(** ** Requests sent to the collaborators *)

(** One entry of the [tools] list: a function with one string parameter. *)
Record FunctionTool : Type := mkFunctionTool {
  tool_name : string;
  tool_description : string;
  tool_property : string;
  tool_property_type : string;
  tool_property_description : string;
  tool_required : list string
}.

(** Keyword arguments of [openai_client.chat.completions.create]; an
    argument that the call site does not pass is [None]. *)
Record CompletionRequest : Type := mkCompletionRequest {
  req_model : string;
  req_messages : list Message;
  req_temperature : PyVal;
  req_max_tokens : Z;
  req_n : Z;
  req_tools : option (list FunctionTool);
  req_stream : option bool;
  req_seed : PyVal
}.

(** Positional arguments of [self.search]. *)
Record SearchArgs : Type := mkSearchArgs {
  arg_top : PyVal;
  arg_query_text : string;
  arg_filter : option string;
  arg_vectors : list VectorQuery;
  arg_use_text_search : bool;
  arg_use_vector_search : bool;
  arg_use_semantic_ranker : bool;
  arg_use_semantic_captions : bool;
  arg_minimum_search_score : PyVal;
  arg_minimum_reranker_score : PyVal
}.

(** Keyword arguments of [build_messages]; [few_shots] and [tools] default
    to [None], [fallback_to_default] to [False]. *)
Record BuildArgs : Type := mkBuildArgs {
  bm_model : string;
  bm_system_prompt : string;
  bm_tools : option (list FunctionTool);
  bm_few_shots : option (list Message);
  bm_past_messages : list Message;
  bm_new_user_content : Content;
  bm_max_tokens : Z;
  bm_fallback_to_default : bool
}.

(** ** Results *)

Inductive ThoughtContent : Type :=
| PromptContent (prompt : list Message)
| QueryContent (query_text : string)
| ResultsContent (serialized : list (gmap string PyVal)).

(** [ThoughtStep(title, description, props=None)] *)
Record ThoughtStep : Type := mkThoughtStep {
  title : string;
  description : ThoughtContent;
  props : option (gmap string PyVal)
}.

(** The dictionary [{"data_points": ..., "thoughts": [...]}]. *)
Record ExtraInfo : Type := mkExtraInfo {
  data_points : gmap string (list string);
  thoughts : list ThoughtStep
}.

(** What a [return] statement of [run_until_final_call] hands back.  The
    final completion is created but not awaited: the caller receives the
    pending request.

    - [TupleValue extra_info chat_coroutine] is the tuple
      [(extra_info, chat_coroutine)];
    - [DictValue dp th chat_coroutine] is the single dictionary
      [{"data_points": dp, "thoughts": th, "chat_coroutine": chat_coroutine}]. *)
Inductive RunValue : Type :=
| TupleValue (extra_info : ExtraInfo) (chat_coroutine : CompletionRequest)
| DictValue (dp : gmap string (list string)) (th : list ThoughtStep)
            (chat_coroutine : CompletionRequest).

(** The metadata and the pending completion carried by either shape. *)
Definition value_data_points (v : RunValue) : gmap string (list string) :=
  match v with
  | TupleValue info _ => data_points info
  | DictValue dp _ _ => dp
  end.

Definition value_thoughts (v : RunValue) : list ThoughtStep :=
  match v with
  | TupleValue info _ => thoughts info
  | DictValue _ th _ => th
  end.

Definition value_coroutine (v : RunValue) : CompletionRequest :=
  match v with
  | TupleValue _ c => c
  | DictValue _ _ c => c
  end.

(** Python's [extra_info, chat_coroutine = value]: only a two-element
    tuple unpacks into the metadata and the handle. *)
Definition is_pair (v : RunValue) : bool :=
  match v with
  | TupleValue _ _ => true
  | DictValue _ _ _ => false
  end.

(** ** Exceptions *)

Inductive Exn : Type :=
| IndexError                       (* messages[-1] on an empty list *)
| ValueError (msg : string)
| TypeError (msg : string)
| UpstreamError (detail : string). (* raised inside a collaborator *)

Definition InputError : Exn :=
  ValueError "The most recent message content must be a string.".

(** ** Coroutines

    The awaited calls and the type of what each one resolves to. *)

Inductive Call : Type :=
| Create (req : CompletionRequest)   (* await openai_client.chat.completions.create(...) *)
| EmbedText (q : string)             (* await self.compute_text_embedding(q) *)
| EmbedImage (q : string)            (* await self.compute_image_embedding(q) *)
| Search (args : SearchArgs)         (* await self.search(...) *)
| FetchImage (result : Document).    (* await fetch_image(blob_container_client, result) *)

Definition Reply (c : Call) : Type :=
  match c with
  | Create _ => ChatCompletion
  | EmbedText _ | EmbedImage _ => VectorQuery
  | Search _ => list Document
  | FetchImage _ => option string
  end.

Inductive Coro (A : Type) : Type :=
| Return (a : A)
| Raise (e : Exn)
| Await (c : Call) (k : Reply c -> Coro A).

Arguments Return {A} a.
Arguments Raise {A} e.
Arguments Await {A} c k.

Fixpoint coro_bind {A B : Type} (f : A -> Coro B) (m : Coro A) : Coro B :=
  match m with
  | Return a => f a
  | Raise e => Raise e
  | Await c k => Await c (fun r => coro_bind f (k r))
  end.

#[export] Instance coro_mret : MRet Coro := fun A a => Return a.
#[export] Instance coro_mbind : MBind Coro := fun A B f m => coro_bind f m.

Definition chat_completions_create (req : CompletionRequest) : Coro ChatCompletion :=
  Await (Create req) Return.
Definition compute_text_embedding (q : string) : Coro VectorQuery :=
  Await (EmbedText q) Return.
Definition compute_image_embedding (q : string) : Coro VectorQuery :=
  Await (EmbedImage q) Return.
Definition search (args : SearchArgs) : Coro (list Document) :=
  Await (Search args) Return.
Definition fetch_image (result : Document) : Coro (option string) :=
  Await (FetchImage result) Return.

(** ** Collaborators and runs

    A collaborator either resolves a call or raises; the exception then
    propagates out of the coroutine.  Collaborators are functions of the
    call: within a run the same call gets the same reply. *)

Definition Collaborators : Type := forall c : Call, string + Reply c.

(** [run env m]: the calls made, in order, and how the coroutine ended. *)
Fixpoint run {A : Type} (env : Collaborators) (m : Coro A) : list Call * (Exn + A) :=
  match m with
  | Return a => ([], inr a)
  | Raise e => ([], inl e)
  | Await c k =>
      match env c with
      | inl detail => ([c], inl (UpstreamError detail))
      | inr r => let '(calls, out) := run env (k r) in (c :: calls, out)
      end
  end.

Definition calls_of {A : Type} (env : Collaborators) (m : Coro A) : list Call :=
  fst (run env m).
Definition outcome_of {A : Type} (env : Collaborators) (m : Coro A) : Exn + A :=
  snd (run env m).

(** ** Members inherited from the base classes

    [ChatApproach] ([approaches/chatapproach.py]) and [Approach]
    ([approaches/approach.py]) are not part of the sources, and
    [build_messages] belongs to the library [openai_messages_token_helper].
    The members that [run_until_final_call] uses are the methods of this
    class. *)

Class ChatApproach : Type := {
  ALLOW_NON_GPT_MODELS : bool;
  query_prompt_template : string;
  query_prompt_few_shots : list Message;
  follow_up_questions_prompt_content : string;
  image_citation_marker : string;
  build_filter : gmap string PyVal -> gmap string PyVal -> option string;
  get_search_query : ChatCompletion -> string -> string;
  get_system_prompt : PyVal -> string -> string;
  serialize_for_results : Document -> gmap string PyVal;
  build_messages : BuildArgs -> list Message
}.

Section Inherited.
Context `{ChatApproach}.

(** Modelled from the spec: the citation of a source; when image citation
    is requested a reference marker is appended to the citation key. *)
Definition get_citation (key : string) (use_image_citation : bool) : string :=
  if use_image_citation then key ++ image_citation_marker else key.

(** Modelled from the spec: [get_sources_content] of
    [approaches/approach.py] is missing from the sources.  For each result
    it emits "citation_key: content-or-caption", with the caption when
    captions are requested and one exists, in the order of the results. *)
Definition get_sources_content (results : list Document)
    (use_semantic_captions use_image_citation : bool) : list string :=
  map (fun doc =>
         get_citation (citation_key doc) use_image_citation ++ ": " ++
         match caption doc with
         | Some c => if use_semantic_captions then c else doc_content doc
         | None => doc_content doc
         end) results.

(** [deployment if deployment else model] *)
Definition deployment_or_model (deployment : option string) (model : string) : string :=
  match deployment with
  | Some d => if str_truthy d then d else model
  | None => model
  end.

(** [{"model": model, "deployment": deployment} if deployment else {"model": model}] *)
Definition model_props (deployment : option string) (model : string) : gmap string PyVal :=
  match deployment with
  | Some d =>
      if str_truthy d
      then {[ "model" := PyStr model; "deployment" := PyStr d ]}
      else {[ "model" := PyStr model ]}
  | None => {[ "model" := PyStr model ]}
  end.

(** A value of type [Optional[str]] stored in a dictionary. *)
Definition opt_str_val (o : option string) : PyVal :=
  match o with
  | Some s => PyStr s
  | None => PyNone
  end.

(** The first lines of both coroutines: how [overrides] is read. *)
Definition use_text_search (overrides : gmap string PyVal) : bool :=
  py_in (dict_get overrides "retrieval_mode") [PyStr "text"; PyStr "hybrid"; PyNone].

Definition use_vector_search (overrides : gmap string PyVal) : bool :=
  py_in (dict_get overrides "retrieval_mode") [PyStr "vectors"; PyStr "hybrid"; PyNone].

Definition use_semantic_ranker (overrides : gmap string PyVal) : bool :=
  if py_truthy (dict_get overrides "semantic_ranker") then true else false.

Definition use_semantic_captions (overrides : gmap string PyVal) : bool :=
  if py_truthy (dict_get overrides "semantic_captions") then true else false.

(** [self.get_system_prompt(overrides.get("prompt_template"), follow_up)]
    where [follow_up] is [self.follow_up_questions_prompt_content] if
    [overrides.get("suggest_followup_questions")] is true, else the empty
    string. *)
Definition system_message_of (overrides : gmap string PyVal) : string :=
  get_system_prompt (dict_get overrides "prompt_template")
    (if py_truthy (dict_get overrides "suggest_followup_questions")
     then follow_up_questions_prompt_content else EmptyString).
End Inherited.

(** ** The text variant: [ChatReadRetrieveReadApproach] *)

Module Text.

(** The attributes of [self] that the coroutine reads. *)
Record Approach : Type := mkApproach {
  chatgpt_model : string;
  chatgpt_deployment : option string;
  chatgpt_token_limit : Z
}.

Definition tools : list FunctionTool :=
  [ {| tool_name := "search_sources";
       tool_description := "Retrieve sources from the Azure AI Search index";
       tool_property := "search_query";
       tool_property_type := "string";
       tool_property_description :=
         "Query string to retrieve documents from azure search eg: 'Health care plan'";
       tool_required := ["search_query"] |} ].

Section Run.
Context `{ChatApproach}.

Definition run_until_final_call (self : Approach) (messages : list Message)
    (overrides auth_claims : gmap string PyVal) (should_stream : bool)
    : Coro RunValue :=
  let seed := dict_get_or overrides "seed" PyNone in
  let use_text_search := use_text_search overrides in
  let use_vector_search := use_vector_search overrides in
  let use_semantic_ranker := use_semantic_ranker overrides in
  let use_semantic_captions := use_semantic_captions overrides in
  let top := dict_get_or overrides "top" (PyInt 3) in
  let minimum_search_score := dict_get_or overrides "minimum_search_score" (PyFloat 0) in
  let minimum_reranker_score := dict_get_or overrides "minimum_reranker_score" (PyFloat 0) in
  let filter := build_filter overrides auth_claims in
  match last messages with
  | None => Raise IndexError
  | Some last_message =>
  match content last_message with
  | ContentParts _ => Raise InputError
  | ContentStr original_user_query =>
  let user_query_request := "Generate search query for: " ++ original_user_query in
  (* STEP 1 *)
  let query_response_token_limit := 100 in
  let query_messages :=
    build_messages
      {| bm_model := chatgpt_model self;
         bm_system_prompt := query_prompt_template;
         bm_tools := Some tools;
         bm_few_shots := Some query_prompt_few_shots;
         bm_past_messages := all_but_last messages;
         bm_new_user_content := ContentStr user_query_request;
         bm_max_tokens := chatgpt_token_limit self - query_response_token_limit;
         bm_fallback_to_default := ALLOW_NON_GPT_MODELS |} in
  chat_completion ← chat_completions_create
      {| req_model := deployment_or_model (chatgpt_deployment self) (chatgpt_model self);
         req_messages := query_messages;
         req_temperature := PyFloat 0;
         req_max_tokens := query_response_token_limit;
         req_n := 1;
         req_tools := Some tools;
         req_stream := None;
         req_seed := seed |};
  let query_text := get_search_query chat_completion original_user_query in
  (* STEP 2 *)
  vectors ← (if use_vector_search
             then v ← compute_text_embedding query_text; mret ([] ++ [v])%list
             else mret []);
  results ← search
      {| arg_top := top;
         arg_query_text := query_text;
         arg_filter := filter;
         arg_vectors := vectors;
         arg_use_text_search := use_text_search;
         arg_use_vector_search := use_vector_search;
         arg_use_semantic_ranker := use_semantic_ranker;
         arg_use_semantic_captions := use_semantic_captions;
         arg_minimum_search_score := minimum_search_score;
         arg_minimum_reranker_score := minimum_reranker_score |};
  let sources_content := get_sources_content results use_semantic_captions false in
  match sources_content with
  | [] =>
      (* no results found: answer without document context *)
      let system_message := system_message_of overrides in
      let response_token_limit := 1024 in
      let messages' :=
        build_messages
          {| bm_model := chatgpt_model self;
             bm_system_prompt := system_message;
             bm_tools := None;
             bm_few_shots := None;
             bm_past_messages := all_but_last messages;
             bm_new_user_content := ContentStr original_user_query;
             bm_max_tokens := chatgpt_token_limit self - response_token_limit;
             bm_fallback_to_default := ALLOW_NON_GPT_MODELS |} in
      let chat_coroutine :=
        {| req_model := deployment_or_model (chatgpt_deployment self) (chatgpt_model self);
           req_messages := messages';
           req_temperature := dict_get_or overrides "temperature" (PyFloat (3 # 10));
           req_max_tokens := response_token_limit;
           req_n := 1;
           req_tools := None;
           req_stream := Some should_stream;
           req_seed := seed |} in
      mret (DictValue ∅ [] chat_coroutine)
  | _ :: _ =>
      (* STEP 3 *)
      let content := join nl sources_content in
      let system_message := system_message_of overrides in
      let response_token_limit := 1024 in
      let messages' :=
        build_messages
          {| bm_model := chatgpt_model self;
             bm_system_prompt := system_message;
             bm_tools := None;
             bm_few_shots := None;
             bm_past_messages := all_but_last messages;
             bm_new_user_content :=
               ContentStr (original_user_query ++ sources_header ++ content);
             bm_max_tokens := chatgpt_token_limit self - response_token_limit;
             bm_fallback_to_default := ALLOW_NON_GPT_MODELS |} in
      let data_points : gmap string (list string) := {[ "text" := sources_content ]} in
      let extra_info :=
        {| data_points := data_points;
           thoughts :=
             [ mkThoughtStep "Prompt to generate search query"
                 (PromptContent query_messages)
                 (Some (model_props (chatgpt_deployment self) (chatgpt_model self)));
               mkThoughtStep "Search using generated search query"
                 (QueryContent query_text)
                 (Some (list_to_map
                    [ ("use_semantic_captions", PyBool use_semantic_captions);
                      ("use_semantic_ranker", PyBool use_semantic_ranker);
                      ("top", top);
                      ("filter", opt_str_val filter);
                      ("use_vector_search", PyBool use_vector_search);
                      ("use_text_search", PyBool use_text_search) ]));
               mkThoughtStep "Search results"
                 (ResultsContent (map serialize_for_results results))
                 None;
               mkThoughtStep "Prompt to generate answer"
                 (PromptContent messages')
                 (Some (model_props (chatgpt_deployment self) (chatgpt_model self))) ] |} in
      let chat_coroutine :=
        {| req_model := deployment_or_model (chatgpt_deployment self) (chatgpt_model self);
           req_messages := messages';
           req_temperature := dict_get_or overrides "temperature" (PyFloat (3 # 10));
           req_max_tokens := response_token_limit;
           req_n := 1;
           req_tools := None;
           req_stream := Some should_stream;
           req_seed := seed |} in
      mret (TupleValue extra_info chat_coroutine)
  end
  end
  end.
End Run.
End Text.

(** ** The vision variant: [ChatReadRetrieveReadVisionApproach] *)

Module Vision.

(** The attributes of [self] that the coroutine reads;
    [chatgpt_token_limit] is computed from [gpt4v_model] by [__init__]. *)
Record Approach : Type := mkApproach {
  chatgpt_model : string;
  chatgpt_deployment : option string;
  gpt4v_deployment : option string;
  gpt4v_model : string;
  chatgpt_token_limit : Z
}.

(** [for field in vector_fields]: a list yields its items, a string its
    characters (here: its bytes), any other value of [overrides] is not
    iterable. *)
Definition py_iter (v : PyVal) : Exn + list PyVal :=
  match v with
  | PyList items => inr items
  | PyStr s => inr (map (fun a => PyStr (String a EmptyString)) (list_ascii_of_string s))
  | _ => inl (TypeError "object is not iterable")
  end.

(** The body of [for field in vector_fields], appending to [vectors]. *)
Fixpoint embed_fields (query_text : string) (vector_fields : list PyVal)
    (vectors : list VectorQuery) : Coro (list VectorQuery) :=
  match vector_fields with
  | [] => mret vectors
  | field :: rest =>
      vector ← (if py_eqb field (PyStr "embedding")
                then compute_text_embedding query_text
                else compute_image_embedding query_text);
      embed_fields query_text rest (vectors ++ [vector])%list
  end.

(** The body of [for result in results], appending to [image_list]. *)
Fixpoint fetch_images (results : list Document) (image_list : list ContentPart)
    : Coro (list ContentPart) :=
  match results with
  | [] => mret image_list
  | result :: rest =>
      url ← fetch_image result;
      fetch_images rest
        (match url with
         | Some u => if str_truthy u then (image_list ++ [ImagePart u])%list else image_list
         | None => image_list
         end)
  end.

(** [[d["image_url"] for d in image_list]] *)
Definition image_urls (image_list : list ContentPart) : list string :=
  omap (fun d => match d with ImagePart u => Some u | TextPart _ => None end) image_list.

Section Run.
Context `{ChatApproach}.

Definition run_until_final_call (self : Approach) (messages : list Message)
    (overrides auth_claims : gmap string PyVal) (should_stream : bool)
    : Coro RunValue :=
  let seed := dict_get_or overrides "seed" PyNone in
  let use_text_search := use_text_search overrides in
  let use_vector_search := use_vector_search overrides in
  let use_semantic_ranker := use_semantic_ranker overrides in
  let use_semantic_captions := use_semantic_captions overrides in
  let top := dict_get_or overrides "top" (PyInt 3) in
  let minimum_search_score := dict_get_or overrides "minimum_search_score" (PyFloat 0) in
  let minimum_reranker_score := dict_get_or overrides "minimum_reranker_score" (PyFloat 0) in
  let filter := build_filter overrides auth_claims in
  let vector_fields := dict_get_or overrides "vector_fields" (PyList [PyStr "embedding"]) in
  let send_text_to_gptvision :=
    py_in (dict_get overrides "gpt4v_input") [PyStr "textAndImages"; PyStr "texts"; PyNone] in
  let send_images_to_gptvision :=
    py_in (dict_get overrides "gpt4v_input") [PyStr "textAndImages"; PyStr "images"; PyNone] in
  match last messages with
  | None => Raise IndexError
  | Some last_message =>
  match content last_message with
  | ContentParts _ => Raise InputError
  | ContentStr original_user_query =>
  let past_messages := all_but_last messages in
  (* STEP 1 *)
  let user_query_request := "Generate search query for: " ++ original_user_query in
  let query_response_token_limit := 100 in
  let query_model := chatgpt_model self in
  let query_deployment := chatgpt_deployment self in
  let query_messages :=
    build_messages
      {| bm_model := query_model;
         bm_system_prompt := query_prompt_template;
         bm_tools := None;
         bm_few_shots := Some query_prompt_few_shots;
         bm_past_messages := past_messages;
         bm_new_user_content := ContentStr user_query_request;
         bm_max_tokens := chatgpt_token_limit self - query_response_token_limit;
         bm_fallback_to_default := false |} in
  chat_completion ← chat_completions_create
      {| req_model := deployment_or_model query_deployment query_model;
         req_messages := query_messages;
         req_temperature := PyFloat 0;
         req_max_tokens := query_response_token_limit;
         req_n := 1;
         req_tools := None;
         req_stream := None;
         req_seed := seed |};
  let query_text := get_search_query chat_completion original_user_query in
  (* STEP 2 *)
  vectors ← (if use_vector_search
             then match py_iter vector_fields with
                  | inl e => Raise e
                  | inr items => embed_fields query_text items []
                  end
             else mret []);
  results ← search
      {| arg_top := top;
         arg_query_text := query_text;
         arg_filter := filter;
         arg_vectors := vectors;
         arg_use_text_search := use_text_search;
         arg_use_vector_search := use_vector_search;
         arg_use_semantic_ranker := use_semantic_ranker;
         arg_use_semantic_captions := use_semantic_captions;
         arg_minimum_search_score := minimum_search_score;
         arg_minimum_reranker_score := minimum_reranker_score |};
  let sources_content := get_sources_content results use_semantic_captions true in
  let content := join nl sources_content in
  (* STEP 3 *)
  let system_message := system_message_of overrides in
  let user_content := [TextPart original_user_query] in
  let user_content :=
    if send_text_to_gptvision
    then (user_content ++ [TextPart (sources_header ++ content)])%list
    else user_content in
  image_list ← (if send_images_to_gptvision then fetch_images results [] else mret []);
  let user_content :=
    if send_images_to_gptvision then (user_content ++ image_list)%list else user_content in
  let response_token_limit := 1024 in
  let messages' :=
    build_messages
      {| bm_model := gpt4v_model self;
         bm_system_prompt := system_message;
         bm_tools := None;
         bm_few_shots := None;
         bm_past_messages := all_but_last messages;
         bm_new_user_content := ContentParts user_content;
         bm_max_tokens := chatgpt_token_limit self - response_token_limit;
         bm_fallback_to_default := ALLOW_NON_GPT_MODELS |} in
  let data_points : gmap string (list string) :=
    {[ "text" := sources_content; "images" := image_urls image_list ]} in
  let extra_info :=
    {| data_points := data_points;
       thoughts :=
         [ mkThoughtStep "Prompt to generate search query"
             (PromptContent query_messages)
             (Some (model_props query_deployment query_model));
           mkThoughtStep "Search using generated search query"
             (QueryContent query_text)
             (Some (list_to_map
                [ ("use_semantic_captions", PyBool use_semantic_captions);
                  ("use_semantic_ranker", PyBool use_semantic_ranker);
                  ("top", top);
                  ("filter", opt_str_val filter);
                  ("vector_fields", vector_fields);
                  ("use_text_search", PyBool use_text_search) ]));
           mkThoughtStep "Search results"
             (ResultsContent (map serialize_for_results results))
             None;
           mkThoughtStep "Prompt to generate answer"
             (PromptContent messages')
             (Some (model_props (gpt4v_deployment self) (gpt4v_model self))) ] |} in
  let chat_coroutine :=
    {| req_model := deployment_or_model (gpt4v_deployment self) (gpt4v_model self);
       req_messages := messages';
       req_temperature := dict_get_or overrides "temperature" (PyFloat (3 # 10));
       req_max_tokens := response_token_limit;
       req_n := 1;
       req_tools := None;
       req_stream := Some should_stream;
       req_seed := seed |} in
  mret (TupleValue extra_info chat_coroutine)
  end
  end.
End Run.
End Vision.

(** ** Either orchestrator

    A request is served by an instance of one of the two classes; the call
    [approach.run_until_final_call(...)] dispatches on it. *)

Inductive Variant : Type :=
| TextVariant (self : Text.Approach)
| VisionVariant (self : Vision.Approach).

Definition run_until_final_call `{ChatApproach} (approach : Variant)
    (messages : list Message) (overrides auth_claims : gmap string PyVal)
    (should_stream : bool) : Coro RunValue :=
  match approach with
  | TextVariant self =>
      Text.run_until_final_call self messages overrides auth_claims should_stream
  | VisionVariant self =>
      Vision.run_until_final_call self messages overrides auth_claims should_stream
  end.

(** The model that rewrites the query, the model that answers, and
    [self.chatgpt_token_limit]. *)
Definition query_model (approach : Variant) : string :=
  match approach with
  | TextVariant self => Text.chatgpt_model self
  | VisionVariant self => Vision.chatgpt_model self
  end.

Definition answer_model (approach : Variant) : string :=
  match approach with
  | TextVariant self => Text.chatgpt_model self
  | VisionVariant self => Vision.gpt4v_model self
  end.

Definition token_limit (approach : Variant) : Z :=
  match approach with
  | TextVariant self => Text.chatgpt_token_limit self
  | VisionVariant self => Vision.chatgpt_token_limit self
  end.

(** ** Fixtures: a concrete orchestrator and concrete collaborators *)

Module Fixtures.

Definition user (text : string) : Message := mkMessage "user" (ContentStr text).

(** A stand-in for the inherited members: the prompt is the system
    message, the history, then the new user content. *)
#[export] Instance base : ChatApproach := {|
  ALLOW_NON_GPT_MODELS := true;
  query_prompt_template := "Rewrite the question as a search query.";
  query_prompt_few_shots := [];
  follow_up_questions_prompt_content := "Generate 3 follow-up questions.";
  image_citation_marker := ".png";
  build_filter := fun _ _ => None;
  get_search_query := fun completion question =>
    default question (completion_content completion);
  get_system_prompt := fun override follow_up =>
    match override with
    | PyStr s => s
    | _ => "You are an assistant. " ++ follow_up
    end;
  serialize_for_results := fun doc =>
    {[ "sourcepage" := PyStr (citation_key doc); "content" := PyStr (doc_content doc) ]};
  build_messages := fun a =>
    (mkMessage "system" (ContentStr (bm_system_prompt a))
       :: bm_past_messages a ++ [mkMessage "user" (bm_new_user_content a)])%list
|}.

Definition text_approach : Text.Approach :=
  {| Text.chatgpt_model := "gpt-4o";
     Text.chatgpt_deployment := Some "chat";
     Text.chatgpt_token_limit := 128000 |}.

Definition vision_approach : Vision.Approach :=
  {| Vision.chatgpt_model := "gpt-4o";
     Vision.chatgpt_deployment := Some "chat";
     Vision.gpt4v_deployment := None;
     Vision.gpt4v_model := "gpt-4o";
     Vision.chatgpt_token_limit := 128000 |}.

Definition policy : Document :=
  {| citation_key := "policy.pdf#p3";
     doc_content := "Returns accepted within 30 days.";
     caption := None;
     image_reference := Some "https://blobs/policy-3.png" |}.

Definition faq : Document :=
  {| citation_key := "faq.pdf#p1";
     doc_content := "Refunds take five days.";
     caption := Some "Refunds";
     image_reference := None |}.

Definition chart : Document :=
  {| citation_key := "chart.pdf#p2";
     doc_content := "Quarterly sales.";
     caption := None;
     image_reference := Some "https://blobs/chart-2.png" |}.

(** Collaborators that never raise: the model answers with a fixed
    query, the index returns [results], an image resolves to the
    reference stored in the document. *)
Definition collaborators (results : list Document) : Collaborators :=
  fun c =>
    match c as c0 return string + Reply c0 with
    | Create _ => inr (mkChatCompletion (Some "return policy") [])
    | EmbedText _ => inr (mkVectorQuery [1 # 2; 1 # 4] "embedding")
    | EmbedImage _ => inr (mkVectorQuery [3 # 4] "imageEmbedding")
    | Search _ => inr results
    | FetchImage doc => inr (image_reference doc)
    end.

(** Like [collaborators], with an index that is unreachable. *)
Definition search_down : Collaborators :=
  fun c =>
    match c as c0 return string + Reply c0 with
    | Search _ => inl "503 Service Unavailable"
    | c0 => collaborators [] c0
    end.

(** Like [collaborators], with an image-embedding service that is down. *)
Definition no_image_embedding (results : list Document) : Collaborators :=
  fun c =>
    match c as c0 return string + Reply c0 with
    | EmbedImage _ => inl "404 Not Found"
    | c0 => collaborators results c0
    end.

(** Like [collaborators], with another text-embedding model: the vector of
    a query is not the same. *)
Definition other_embeddings (results : list Document) : Collaborators :=
  fun c =>
    match c as c0 return string + Reply c0 with
    | EmbedText _ => inr (mkVectorQuery [1 # 3] "embedding")
    | c0 => collaborators results c0
    end.

Definition question : list Message := [user "What is the return policy?"].

Definition multipart : list Message :=
  [user "hello"; mkMessage "user" (ContentParts [TextPart "What is this?"])].
End Fixtures.

(** ** Vocabulary of the statements *)

(** The content of [messages[-1]], when there is a last message. *)
Definition last_content (messages : list Message) : option Content :=
  content <$> last messages.

(** [isinstance(c, str)] *)
Definition is_plain_string (c : Content) : bool :=
  match c with
  | ContentStr _ => true
  | ContentParts _ => false
  end.

Definition is_embedding (c : Call) : bool :=
  match c with EmbedText _ | EmbedImage _ => true | _ => false end.

Definition is_fetch (c : Call) : bool :=
  match c with FetchImage _ => true | _ => false end.

(** A URL that [if url:] lets through: present and not empty. *)
Definition resolved (url : option string) : option string :=
  match url with
  | Some u => if str_truthy u then Some u else None
  | None => None
  end.

(** The URLs that the image-fetch collaborator resolves for [results], in
    the order of the results. *)
Definition resolved_urls (env : Collaborators) (results : list Document) : list string :=
  omap (fun result =>
          match env (FetchImage result) with
          | inr url => resolved url
          | inl _ => None
          end) results.

(** [overrides.get("retrieval_mode")] and [overrides.get("gpt4v_input")]:
    [PyNone] stands for an option that the request leaves out. *)
Definition retrieval_mode (overrides : gmap string PyVal) : PyVal :=
  dict_get overrides "retrieval_mode".

Definition gpt4v_input (overrides : gmap string PyVal) : PyVal :=
  dict_get overrides "gpt4v_input".

(** The no-sources answer: whenever a run returns and every search it made
    came back empty, the result carries no data points and no thoughts, and
    the prompt of the pending completion is built for [model] from the
    system prompt, the history and the original question alone, within
    [limit - 1024] tokens. *)
Definition answers_without_sources `{ChatApproach} (env : Collaborators)
    (coroutine : Coro RunValue) (model : string) (limit : Z)
    (messages : list Message) (overrides : gmap string PyVal) : Prop :=
  forall calls v,
    run env coroutine = (calls, inr v) ->
    (forall args, In (Search args) calls -> env (Search args) = inr []) ->
    value_data_points v = ∅ /\
    value_thoughts v = [] /\
    exists question,
      last_content messages = Some (ContentStr question) /\
      req_messages (value_coroutine v) =
        build_messages
          {| bm_model := model;
             bm_system_prompt := system_message_of overrides;
             bm_tools := None;
             bm_few_shots := None;
             bm_past_messages := all_but_last messages;
             bm_new_user_content := ContentStr question;
             bm_max_tokens := limit - 1024;
             bm_fallback_to_default := ALLOW_NON_GPT_MODELS |}.

(** The thought trace of the grounded path: four steps with fixed titles,
    carrying the query prompt, the query text, the serialized results and
    the answer prompt, in this order. *)
Definition four_thoughts (steps : list ThoughtStep) (query_prompt : list Message)
    (query_text : string) (serialized : list (gmap string PyVal))
    (answer_prompt : list Message) : Prop :=
  map title steps =
    [ "Prompt to generate search query"; "Search using generated search query";
      "Search results"; "Prompt to generate answer" ] /\
  map description steps =
    [ PromptContent query_prompt; QueryContent query_text;
      ResultsContent serialized; PromptContent answer_prompt ].

(** Two sets of collaborators answer a call alike. *)
Definition same_reply (env1 env2 : Collaborators) (c : Call) : Prop :=
  env1 c = env2 c.

(** ** Construction of the orchestrators

    [get_token_limit] belongs to the library [openai_messages_token_helper]
    and is a parameter.  Of the attributes that [__init__] stores, those
    that [run_until_final_call] reads are kept. *)

Section Construction.
Context `{ChatApproach}.
Variable get_token_limit : string -> bool -> Z.

(** [ChatReadRetrieveReadApproach.__init__]:
    [self.chatgpt_token_limit =
       get_token_limit(chatgpt_model, default_to_minimum=self.ALLOW_NON_GPT_MODELS)] *)
Definition text__init__ (chatgpt_model : string) (chatgpt_deployment : option string)
    : Text.Approach :=
  {| Text.chatgpt_model := chatgpt_model;
     Text.chatgpt_deployment := chatgpt_deployment;
     Text.chatgpt_token_limit := get_token_limit chatgpt_model ALLOW_NON_GPT_MODELS |}.

(** [ChatReadRetrieveReadVisionApproach.__init__]:
    [self.chatgpt_token_limit =
       get_token_limit(gpt4v_model, default_to_minimum=self.ALLOW_NON_GPT_MODELS)] *)
Definition vision__init__ (chatgpt_model : string) (chatgpt_deployment : option string)
    (gpt4v_deployment : option string) (gpt4v_model : string) : Vision.Approach :=
  {| Vision.chatgpt_model := chatgpt_model;
     Vision.chatgpt_deployment := chatgpt_deployment;
     Vision.gpt4v_deployment := gpt4v_deployment;
     Vision.gpt4v_model := gpt4v_model;
     Vision.chatgpt_token_limit := get_token_limit gpt4v_model ALLOW_NON_GPT_MODELS |}.
End Construction.

(** ** Vocabulary of the calls of a run *)

Definition is_create (c : Call) : bool :=
  match c with Create _ => true | _ => false end.

Definition is_search (c : Call) : bool :=
  match c with Search _ => true | _ => false end.

(** The collaborator replied to the call. *)
Definition replied (env : Collaborators) (c : Call) : Prop :=
  exists r, env c = inr r.

(** The embedding that one entry of [vector_fields] asks for, and the reply
    to it. *)
Definition embedding_call (query_text : string) (field : PyVal) : Call :=
  if py_eqb field (PyStr "embedding") then EmbedText query_text else EmbedImage query_text.

Definition embedding_reply (env : Collaborators) (query_text : string) (field : PyVal)
    : string + VectorQuery :=
  if py_eqb field (PyStr "embedding")
  then env (EmbedText query_text)
  else env (EmbedImage query_text).

(** The order of the calls of a request: nothing, or the query-rewriting
    completion, then embeddings, then at most one search followed by image
    fetches. *)
Definition follows_protocol (calls : list Call) : Prop :=
  calls = [] \/
  exists request embeddings tail,
    calls = (Create request :: embeddings ++ tail)%list /\
    forallb is_embedding embeddings = true /\
    (tail = [] \/
     exists args fetches,
       tail = Search args :: fetches /\ forallb is_fetch fetches = true).

(** The model named in a request: the deployment when it is set and not
    empty, else the model. *)
Definition answer_deployment (approach : Variant) : option string :=
  match approach with
  | TextVariant self => Text.chatgpt_deployment self
  | VisionVariant self => Vision.gpt4v_deployment self
  end.

Definition query_deployment (approach : Variant) : option string :=
  match approach with
  | TextVariant self => Text.chatgpt_deployment self
  | VisionVariant self => Vision.chatgpt_deployment self
  end.

(** The same request with another [stream] argument. *)
Definition with_stream (should_stream : bool) (request : CompletionRequest)
    : CompletionRequest :=
  {| req_model := req_model request;
     req_messages := req_messages request;
     req_temperature := req_temperature request;
     req_max_tokens := req_max_tokens request;
     req_n := req_n request;
     req_tools := req_tools request;
     req_stream := Some should_stream;
     req_seed := req_seed request |}.

(** A table of token limits, for worked requests. *)
Definition token_limits (model : string) (default_to_minimum : bool) : Z :=
  if String.eqb model "gpt-4o" then 128000
  else if String.eqb model "gpt-35-turbo" then 4000
  else if default_to_minimum then 4000 else 0.

(** ** Facts about runs *)

Section RunFacts.
Context {A B : Type}.

Lemma run_bind (env : Collaborators) (m : Coro A) (f : A -> Coro B) :
  run env (m ≫= f) =
    match run env m with
    | (calls, inl e) => (calls, inl e)
    | (calls, inr a) => let '(calls', out) := run env (f a) in ((calls ++ calls')%list, out)
    end.
Proof.
  unfold mbind, coro_mbind.
  induction m as [a | e | c k IH]; simpl.
  - destruct (run env (f a)); reflexivity.
  - reflexivity.
  - destruct (env c) as [detail | r]; [reflexivity |].
    rewrite IH. destruct (run env (k r)) as [calls [e | a]]; [reflexivity |].
    destruct (run env (f a)); reflexivity.
Qed.

Lemma run_bind' (env : Collaborators) (m : Coro A) (f : A -> Coro B) :
  run env (coro_bind f m) =
    match run env m with
    | (calls, inl e) => (calls, inl e)
    | (calls, inr a) => let '(calls', out) := run env (f a) in ((calls ++ calls')%list, out)
    end.
Proof. apply run_bind. Qed.

(** A run only depends on the replies to the calls it makes. *)
Lemma run_agree (env1 env2 : Collaborators) (m : Coro A) :
  Forall (same_reply env1 env2) (calls_of env1 m) -> run env1 m = run env2 m.
Proof.
  unfold calls_of, same_reply.
  induction m as [a | e | c k IH]; simpl; intros Hagree; try reflexivity.
  destruct (env1 c) as [detail | r] eqn:E1; simpl in Hagree.
  - apply Forall_cons_1 in Hagree as [Hc _]. rewrite <- Hc, E1. reflexivity.
  - destruct (run env1 (k r)) as [calls out] eqn:Ek. simpl in Hagree.
    apply Forall_cons_1 in Hagree as [Hc Hrest].
    rewrite <- Hc, E1, <- IH, Ek; [reflexivity |].
    rewrite Ek. exact Hrest.
Qed.
End RunFacts.

(** Awaiting one collaborator. *)
Ltac run_one env c := simpl; destruct (env c); reflexivity.

Lemma run_create (env : Collaborators) (req : CompletionRequest) :
  run env (chat_completions_create req) =
    match env (Create req) with
    | inl detail => ([Create req], inl (UpstreamError detail))
    | inr completion => ([Create req], inr completion)
    end.
Proof. run_one env (Create req). Qed.

Lemma run_text_embedding (env : Collaborators) (q : string) :
  run env (compute_text_embedding q) =
    match env (EmbedText q) with
    | inl detail => ([EmbedText q], inl (UpstreamError detail))
    | inr v => ([EmbedText q], inr v)
    end.
Proof. run_one env (EmbedText q). Qed.

Lemma run_image_embedding (env : Collaborators) (q : string) :
  run env (compute_image_embedding q) =
    match env (EmbedImage q) with
    | inl detail => ([EmbedImage q], inl (UpstreamError detail))
    | inr v => ([EmbedImage q], inr v)
    end.
Proof. run_one env (EmbedImage q). Qed.

Lemma run_search (env : Collaborators) (args : SearchArgs) :
  run env (search args) =
    match env (Search args) with
    | inl detail => ([Search args], inl (UpstreamError detail))
    | inr results => ([Search args], inr results)
    end.
Proof. run_one env (Search args). Qed.

Lemma run_fetch_image (env : Collaborators) (result : Document) :
  run env (fetch_image result) =
    match env (FetchImage result) with
    | inl detail => ([FetchImage result], inl (UpstreamError detail))
    | inr url => ([FetchImage result], inr url)
    end.
Proof. run_one env (FetchImage result). Qed.

(** ** Facts about the values of [overrides] *)

Lemma py_eqb_str (v : PyVal) (s : string) : py_eqb v (PyStr s) = true <-> v = PyStr s.
Proof.
  destruct v; simpl; try (split; [discriminate | discriminate]).
  rewrite String.eqb_eq. split; [intros -> | intros [= ->]]; reflexivity.
Qed.

Lemma py_eqb_none (v : PyVal) : py_eqb v PyNone = true <-> v = PyNone.
Proof. destruct v; simpl; split; try discriminate; reflexivity. Qed.

(** [v in [a, b, None]] for two strings [a] and [b]. *)
Lemma py_in_modes (v : PyVal) (a b : string) :
  py_in v [PyStr a; PyStr b; PyNone] = true <-> v = PyStr a \/ v = PyStr b \/ v = PyNone.
Proof.
  unfold py_in. cbn [existsb]. rewrite orb_false_r, !orb_true_iff.
  rewrite !py_eqb_str, py_eqb_none. reflexivity.
Qed.

(** ** Facts about the two loops of the vision variant *)

Section Loops.
Variable env : Collaborators.

Lemma embed_fields_run (q : string) (items : list PyVal) :
  forall vectors calls out,
    run env (Vision.embed_fields q items vectors) = (calls, out) ->
    forallb is_embedding calls = true /\
    (forall e, out = inl e -> exists detail, e = UpstreamError detail).
Proof.
  induction items as [| field rest IH]; intros vectors calls out Hrun.
  - injection Hrun as <- <-. split; [reflexivity | discriminate].
  - cbn [Vision.embed_fields] in Hrun. unfold mbind, coro_mbind in Hrun.
    rewrite run_bind' in Hrun.
    destruct (py_eqb field (PyStr "embedding"));
      [rewrite run_text_embedding in Hrun; destruct (env (EmbedText q)) as [detail | v]
      |rewrite run_image_embedding in Hrun; destruct (env (EmbedImage q)) as [detail | v]].
    all: try (injection Hrun as <- <-; split; [reflexivity | intros e [= <-]; eauto]).
    all: match type of Hrun with
         | context [run env ?m] => destruct (run env m) as [calls' out'] eqn:E
         end;
      injection Hrun as <- <-; apply IH in E as [Hemb Hout]; split; assumption.
Qed.

Lemma fetch_images_run (results : list Document) :
  forall image_list calls out,
    run env (Vision.fetch_images results image_list) = (calls, out) ->
    forallb is_fetch calls = true /\
    (forall e, out = inl e -> exists detail, e = UpstreamError detail) /\
    (forall l, out = inr l ->
       calls = map FetchImage results /\
       l = (image_list ++ map ImagePart (resolved_urls env results))%list).
Proof.
  induction results as [| result rest IH]; intros image_list calls out Hrun.
  - injection Hrun as <- <-. split; [reflexivity |]. split; [discriminate |].
    intros l [= <-]. split; [reflexivity |]. simpl. rewrite app_nil_r. reflexivity.
  - cbn [Vision.fetch_images] in Hrun. unfold mbind, coro_mbind in Hrun.
    rewrite run_bind', run_fetch_image in Hrun.
    unfold resolved_urls. cbn [omap list_omap].
    destruct (env (FetchImage result)) as [detail | url].
    + injection Hrun as <- <-. split; [reflexivity |].
      split; [intros e [= <-]; eauto | discriminate].
    + match type of Hrun with
      | context [run env ?m] => destruct (run env m) as [calls' out'] eqn:E
      end.
      injection Hrun as <- <-. apply IH in E as (Hfetch & Hraise & Hret).
      split; [exact Hfetch |]. split; [exact Hraise |].
      intros l Hl. destruct (Hret l Hl) as [-> ->]. split; [reflexivity |].
      unfold resolved, resolved_urls.
      destruct url as [u |]; [destruct (str_truthy u) |]; simpl;
        rewrite <- ?app_assoc; reflexivity.
Qed.

(** When every fetch replies, with a URL or without, the loop completes. *)
Lemma fetch_images_completes (results : list Document) (image_list : list ContentPart) :
  (forall result, In result results -> exists url, env (FetchImage result) = inr url) ->
  run env (Vision.fetch_images results image_list) =
    (map FetchImage results,
     inr (image_list ++ map ImagePart (resolved_urls env results))%list).
Proof.
  intros Hreplies.
  destruct (run env (Vision.fetch_images results image_list)) as [calls [e | l]] eqn:E.
  - exfalso. revert image_list calls e E.
    induction results as [| result rest IH]; intros image_list calls e E; [discriminate |].
    cbn [Vision.fetch_images] in E. unfold mbind, coro_mbind in E.
    rewrite run_bind', run_fetch_image in E.
    destruct (Hreplies result (or_introl eq_refl)) as [url Hurl]. rewrite Hurl in E.
    match type of E with
    | context [run env ?m] => destruct (run env m) as [calls' out'] eqn:E'
    end.
    injection E as <- ->.
    eapply IH; [| exact E']. intros r Hr. apply Hreplies. right. exact Hr.
  - apply fetch_images_run in E as (_ & _ & Hret).
    destruct (Hret l eq_refl) as [-> ->]. reflexivity.
Qed.
End Loops.

(** ** Stepping through a run *)

(** Unfold the awaits that are at the head of the run in [H]. *)
Ltac unfold_run H :=
  cbn [run coro_bind mbind coro_mbind mret coro_mret
       chat_completions_create compute_text_embedding compute_image_embedding
       search fetch_image] in H.

(** Case on the reply to the next awaited call of the run in [H]. *)
Ltac next_reply env H :=
  unfold_run H;
  match type of H with
  | context [match env ?c with _ => _ end] =>
      let detail := fresh "detail" in
      let reply := fresh "reply" in
      let Hreply := fresh "Hreply" in
      destruct (env c) as [detail | reply] eqn:Hreply
  end;
  unfold_run H.

(** Split the run in [H] at a loop whose run is not yet known. *)
Ltac next_loop env H :=
  unfold_run H;
  match type of H with
  | context [run env (coro_bind ?f ?m)] => rewrite (run_bind' env m f) in H
  | context [run env (?m ≫= ?f)] => rewrite (run_bind env m f) in H
  end;
  match type of H with
  | context [match run env ?m with _ => _ end] =>
      let calls := fresh "calls" in
      let e := fresh "e" in
      let a := fresh "a" in
      let Hloop := fresh "Hloop" in
      destruct (run env m) as [calls [e | a]] eqn:Hloop
  end;
  unfold_run H.

(** Case on whether the search returned anything, in the text variant. *)
Ltac text_sources H :=
  match type of H with
  | context [get_sources_content ?r _ _] =>
      let result := fresh "result" in
      let results := fresh "results" in
      destruct r as [| result results]
  end;
  cbn [get_sources_content map] in H;
  unfold_run H.

(** All the ways a run of the text variant can go: one goal per path, in
    the order of the stages. *)
Ltac text_cases env H :=
  unfold Text.run_until_final_call in H;
  match type of H with
  | context [last ?ms] =>
      let last_message := fresh "last_message" in
      let Hlast := fresh "Hlast" in
      destruct (last ms) as [last_message |] eqn:Hlast; unfold_run H;
      [ match type of H with
        | context [content ?m] =>
            let question := fresh "question" in
            let parts := fresh "parts" in
            let Hcontent := fresh "Hcontent" in
            destruct (content m) as [question | parts] eqn:Hcontent; unfold_run H;
            [ cbv zeta in H; next_reply env H;
              [ | match type of H with
                  | context [if use_vector_search ?o then _ else _] =>
                      let Hvector := fresh "Hvector" in
                      destruct (use_vector_search o) eqn:Hvector;
                      [ next_reply env H; [ | next_reply env H; [ | text_sources H ] ]
                      | next_reply env H; [ | text_sources H ] ]
                  end ]
            | ]
        end
      | ]
  end.

(** The image loop of the vision variant, when images are sent. *)
Ltac vision_images env H :=
  match type of H with
  | context [if ?b then Vision.fetch_images _ _ else _] =>
      let Himages := fresh "Himages" in
      destruct b eqn:Himages; [ next_loop env H | unfold_run H ]
  end.

(** All the ways a run of the vision variant can go. *)
Ltac vision_cases env H :=
  unfold Vision.run_until_final_call in H;
  match type of H with
  | context [last ?ms] =>
      let last_message := fresh "last_message" in
      let Hlast := fresh "Hlast" in
      destruct (last ms) as [last_message |] eqn:Hlast; unfold_run H;
      [ match type of H with
        | context [content ?m] =>
            let question := fresh "question" in
            let parts := fresh "parts" in
            let Hcontent := fresh "Hcontent" in
            destruct (content m) as [question | parts] eqn:Hcontent; unfold_run H;
            [ cbv zeta in H; next_reply env H;
              [ | match type of H with
                  | context [if use_vector_search ?o then _ else _] =>
                      let Hvector := fresh "Hvector" in
                      destruct (use_vector_search o) eqn:Hvector;
                      [ match type of H with
                        | context [Vision.py_iter ?v] =>
                            let Hiter := fresh "Hiter" in
                            let items := fresh "items" in
                            destruct (Vision.py_iter v) as [? | items] eqn:Hiter;
                            [ unfold_run H
                            | next_loop env H;
                              [ | next_reply env H; [ | vision_images env H ] ] ]
                        end
                      | next_reply env H; [ | vision_images env H ] ]
                  end ]
            | ]
        end
      | ]
  end.

Lemma py_iter_raises (v : PyVal) (e : Exn) :
  Vision.py_iter v = inl e -> exists msg, e = TypeError msg.
Proof. destruct v; simpl; intros Hiter; simplify_eq; eauto. Qed.

(** What is known of the embedding loop, once a run has been split into
    its paths. *)
Ltac embed_facts env :=
  repeat match goal with
    | Hloop : run env (Vision.embed_fields _ _ _) = _ |- _ =>
        apply embed_fields_run in Hloop as [? _]
    end.

(** The calls of the image loop are fetches. *)
Ltac fetch_facts env :=
  try match goal with
    | Hloop : run env (Vision.fetch_images _ _) = _ |- _ =>
        pose proof (proj1 (fetch_images_run env _ _ _ _ Hloop))
    end.

(** What is known of the loops and of a failed iteration, once a run has
    been split into its paths. *)
Ltac loop_facts env :=
  repeat match goal with
    | Hloop : run env (Vision.embed_fields _ _ _) = _ |- _ =>
        apply embed_fields_run in Hloop as [? ?]
    | Hloop : run env (Vision.fetch_images _ _) = _ |- _ =>
        apply fetch_images_run in Hloop as (? & ? & ?)
    | Hiter : Vision.py_iter _ = inl _ |- _ =>
        apply py_iter_raises in Hiter as [? ?]
    | Hraise : forall e, inl ?e0 = inl e -> _ |- _ =>
        destruct (Hraise e0 eq_refl); clear Hraise
    | Hraise : forall e, inr _ = inl e -> _ |- _ => clear Hraise
    | Hret : forall l, inr ?l0 = inr l -> _ |- _ =>
        destruct (Hret l0 eq_refl); clear Hret
    | Hret : forall l, inl _ = inr l -> _ |- _ => clear Hret
    end.

(** ** The input check *)

Section InputCheck.
Context `{ChatApproach}.
Variable env : Collaborators.

Lemma text_input_error self messages overrides auth_claims should_stream calls out :
  run env (Text.run_until_final_call self messages overrides auth_claims should_stream)
    = (calls, out) ->
  (out = inl InputError <->
     exists c, last_content messages = Some c /\ is_plain_string c = false) /\
  (out = inl InputError -> calls = []).
Proof.
  unfold last_content. intros Hrun. text_cases env Hrun.
  all: simplify_eq; simpl; rewrite ?Hcontent.
  all: split; [split |]; try discriminate; try reflexivity.
  all: try (intros (c & Hc & Hplain); simplify_eq; discriminate).
  intros _. eexists. split; reflexivity.
Qed.

Lemma vision_input_error self messages overrides auth_claims should_stream calls out :
  run env (Vision.run_until_final_call self messages overrides auth_claims should_stream)
    = (calls, out) ->
  (out = inl InputError <->
     exists c, last_content messages = Some c /\ is_plain_string c = false) /\
  (out = inl InputError -> calls = []).
Proof.
  unfold last_content. intros Hrun. vision_cases env Hrun.
  all: simplify_eq; loop_facts env; simplify_eq; simpl; rewrite ?Hcontent.
  all: split; [split |]; try discriminate; try reflexivity.
  all: try (intros (c & Hc & Hplain); simplify_eq; discriminate).
  intros _. eexists. split; reflexivity.
Qed.
End InputCheck.

(** C3. [run_until_final_call] raises the input error exactly when the
    content of the last message is not a plain string, in both variants, and
    when it does no collaborator has been called: the list of calls of the
    run is empty. *)
Theorem input_error_iff_last_content_not_plain `{ChatApproach} (env : Collaborators)
    (approach : Variant) (messages : list Message)
    (overrides auth_claims : gmap string PyVal) (should_stream : bool) :
  let coroutine :=
    run_until_final_call approach messages overrides auth_claims should_stream in
  (outcome_of env coroutine = inl InputError <->
     exists c, last_content messages = Some c /\ is_plain_string c = false) /\
  (outcome_of env coroutine = inl InputError -> calls_of env coroutine = []).
Proof.
  intros coroutine. unfold outcome_of, calls_of.
  destruct (run env coroutine) as [calls out] eqn:Hrun. simpl.
  destruct approach as [self | self].
  - exact (text_input_error env _ _ _ _ _ _ _ Hrun).
  - exact (vision_input_error env _ _ _ _ _ _ _ Hrun).
Qed.

(** ** The no-sources path *)

(** Membership of a call in the calls of a path. *)
Ltac in_calls :=
  repeat first [rewrite in_app_iff | progress cbn [In]]; tauto.

(** The search of a path came back empty. *)
Ltac search_was_empty env Hzero :=
  match goal with
  | Hreply : env (Search ?args) = inr ?results |- _ =>
      let Hempty := fresh "Hempty" in
      assert (Hempty : env (Search args) = inr []) by (apply Hzero; in_calls);
      rewrite Hempty in Hreply; clear Hzero Hempty; simplify_eq
  end.

Section NoSources.
Context `{ChatApproach}.
Variable env : Collaborators.

Lemma text_answers_without_sources self messages overrides auth_claims should_stream :
  answers_without_sources env
    (Text.run_until_final_call self messages overrides auth_claims should_stream)
    (Text.chatgpt_model self) (Text.chatgpt_token_limit self) messages overrides.
Proof.
  unfold answers_without_sources, last_content. intros calls v Hrun Hzero.
  text_cases env Hrun; simplify_eq; try search_was_empty env Hzero.
  simpl; rewrite Hcontent; repeat split; eauto.
  simpl; rewrite Hcontent; repeat split; eauto.
Qed.

Lemma vision_without_sources self messages overrides auth_claims should_stream calls v :
  run env (Vision.run_until_final_call self messages overrides auth_claims should_stream)
    = (calls, inr v) ->
  (forall args, In (Search args) calls -> env (Search args) = inr []) ->
  value_data_points v = {[ "text" := []; "images" := [] ]} /\
  length (value_thoughts v) = 4%nat.
Proof.
  intros Hrun Hzero.
  vision_cases env Hrun; simplify_eq; search_was_empty env Hzero.
  all: try (cbn [Vision.fetch_images run mret coro_mret] in *; simplify_eq).
  all: split; reflexivity.
Qed.
End NoSources.

(** C1, as amended.  In the text variant a run whose search comes back empty
    returns empty data points and an empty thought trace, with a final
    prompt built from the system prompt, the history and the original
    question alone.  The vision variant has no such path: with an empty
    search it returns the data points [{"text": [], "images": []}] and four
    thoughts. *)
Theorem no_sources_answer `{ChatApproach} (env : Collaborators)
    (messages : list Message) (overrides auth_claims : gmap string PyVal)
    (should_stream : bool) :
  (forall self,
     answers_without_sources env
       (run_until_final_call (TextVariant self) messages overrides auth_claims should_stream)
       (answer_model (TextVariant self)) (token_limit (TextVariant self))
       messages overrides) /\
  (forall self calls v,
     run env (run_until_final_call (VisionVariant self) messages overrides auth_claims
                should_stream) = (calls, inr v) ->
     (forall args, In (Search args) calls -> env (Search args) = inr []) ->
     value_data_points v = {[ "text" := []; "images" := [] ]} /\
     length (value_thoughts v) = 4%nat).
Proof.
  split.
  - intros self. apply text_answers_without_sources.
  - intros self calls v. apply vision_without_sources.
Qed.

(** ** Which call is which *)

Lemma not_in_calls (kind : Call -> bool) (calls : list Call) (c : Call) :
  forallb kind calls = true -> kind c = false -> ~ In c calls.
Proof.
  intros Hall Hkind Hin. rewrite forallb_forall in Hall.
  specialize (Hall c Hin). congruence.
Qed.

(** Find the call [Hin] speaks of among the calls of a path. *)
Ltac which_call Hin :=
  repeat first [rewrite in_app_iff in Hin | progress cbn [In] in Hin];
  repeat match type of Hin with
    | _ \/ _ => destruct Hin as [Hin | Hin]
    end;
  try discriminate Hin;
  try contradiction;
  try (exfalso; revert Hin; eapply not_in_calls; [eassumption | reflexivity]);
  try (injection Hin as <-).

(** The search call [Hin] speaks of, and its reply in [Hres]. *)
Ltac this_search env Hin Hres :=
  which_call Hin;
  match goal with
  | Hreply : env (Search _) = _ |- _ =>
      first
        [ constr_eq Hreply Hres; fail 1
        | let Hsame := fresh "Hsame" in
          pose proof (eq_trans (eq_sym Hreply) Hres) as Hsame;
          clear Hres; simplify_eq ]
  end.

(** ** The grounded path *)

Section Grounded.
Context `{ChatApproach}.
Variable env : Collaborators.

Lemma text_grounded_thoughts self messages overrides auth_claims should_stream
    calls v args results :
  run env (Text.run_until_final_call self messages overrides auth_claims should_stream)
    = (calls, inr v) ->
  In (Search args) calls ->
  env (Search args) = inr results ->
  results <> [] ->
  exists query_request,
    In (Create query_request) calls /\
    four_thoughts (value_thoughts v) (req_messages query_request)
      (arg_query_text args) (map serialize_for_results results)
      (req_messages (value_coroutine v)).
Proof.
  intros Hrun Hin Hres Hfound.
  text_cases env Hrun; simplify_eq; this_search env Hin Hres; try contradiction.
  all: eexists; split; [left; reflexivity | split; reflexivity].
Qed.

Lemma vision_grounded_thoughts self messages overrides auth_claims should_stream
    calls v args results :
  run env (Vision.run_until_final_call self messages overrides auth_claims should_stream)
    = (calls, inr v) ->
  In (Search args) calls ->
  env (Search args) = inr results ->
  exists query_request,
    In (Create query_request) calls /\
    four_thoughts (value_thoughts v) (req_messages query_request)
      (arg_query_text args) (map serialize_for_results results)
      (req_messages (value_coroutine v)).
Proof.
  intros Hrun Hin Hres.
  vision_cases env Hrun; simplify_eq; loop_facts env; this_search env Hin Hres.
  all: eexists; split; [left; reflexivity | split; reflexivity].
Qed.
End Grounded.

(** ** Retrieval modes *)

Lemma use_text_search_iff (overrides : gmap string PyVal) :
  use_text_search overrides = true <->
  retrieval_mode overrides = PyStr "text" \/
  retrieval_mode overrides = PyStr "hybrid" \/
  retrieval_mode overrides = PyNone.
Proof. apply py_in_modes. Qed.

Lemma use_vector_search_iff (overrides : gmap string PyVal) :
  use_vector_search overrides = true <->
  retrieval_mode overrides = PyStr "vectors" \/
  retrieval_mode overrides = PyStr "hybrid" \/
  retrieval_mode overrides = PyNone.
Proof. apply py_in_modes. Qed.

Lemma retrieval_mode_absent (overrides : gmap string PyVal) :
  overrides !! "retrieval_mode" = None -> retrieval_mode overrides = PyNone.
Proof. unfold retrieval_mode, dict_get. intros ->. reflexivity. Qed.

(** C5. Text search is on exactly for the retrieval modes "text", "hybrid"
    and none, vector search exactly for "vectors", "hybrid" and none, and a
    request without the key has both.  In the text variant, a search that is
    reached gets these two flags; with vector search on, the run computed
    exactly one embedding, of the query text, and passed it as the only
    vector; with vector search off no embedding is computed and no vector
    is passed. *)
Theorem retrieval_mode_selects_search `{ChatApproach} (env : Collaborators)
    (self : Text.Approach) (messages : list Message)
    (overrides auth_claims : gmap string PyVal) (should_stream : bool)
    (calls : list Call) (out : Exn + RunValue) :
  run env (run_until_final_call (TextVariant self) messages overrides auth_claims
             should_stream) = (calls, out) ->
  (use_text_search overrides = true <->
     retrieval_mode overrides = PyStr "text" \/
     retrieval_mode overrides = PyStr "hybrid" \/
     retrieval_mode overrides = PyNone) /\
  (use_vector_search overrides = true <->
     retrieval_mode overrides = PyStr "vectors" \/
     retrieval_mode overrides = PyStr "hybrid" \/
     retrieval_mode overrides = PyNone) /\
  (overrides !! "retrieval_mode" = None ->
     use_text_search overrides = true /\ use_vector_search overrides = true) /\
  (use_vector_search overrides = false -> List.filter is_embedding calls = []) /\
  (forall args,
     In (Search args) calls ->
     arg_use_text_search args = use_text_search overrides /\
     arg_use_vector_search args = use_vector_search overrides /\
     if use_vector_search overrides
     then exists embedding,
            List.filter is_embedding calls = [EmbedText (arg_query_text args)] /\
            env (EmbedText (arg_query_text args)) = inr embedding /\
            arg_vectors args = [embedding]
     else arg_vectors args = []).
Proof.
  intros Hrun.
  split; [apply use_text_search_iff |].
  split; [apply use_vector_search_iff |].
  split.
  { intros Habsent. apply retrieval_mode_absent in Habsent.
    rewrite use_text_search_iff, use_vector_search_iff. tauto. }
  cbn [run_until_final_call] in Hrun.
  text_cases env Hrun; simplify_eq.
  all: split; [try reflexivity; try discriminate |].
  all: intros args Hin; which_call Hin.
  all: repeat split; try reflexivity.
  all: eexists; split; [reflexivity | split; [eassumption | reflexivity]].
Qed.

(** ** The query-rewriting call *)

(** C6. In either variant, every completion that a run awaits is the
    query-rewriting call: temperature 0.0, at most 100 output tokens, n = 1,
    whatever the overrides hold, on a prompt built by [build_messages] for
    the rewriting instruction with a budget of [chatgpt_token_limit - 100]
    tokens.  A run whose last message is a plain string starts with that
    call. *)
Theorem query_rewriting_call_is_fixed `{ChatApproach} (env : Collaborators)
    (approach : Variant) (messages : list Message)
    (overrides auth_claims : gmap string PyVal) (should_stream : bool)
    (calls : list Call) (out : Exn + RunValue) :
  run env (run_until_final_call approach messages overrides auth_claims should_stream)
    = (calls, out) ->
  (forall question,
     last_content messages = Some (ContentStr question) ->
     exists request rest, calls = Create request :: rest) /\
  (forall request,
     In (Create request) calls ->
     req_temperature request = PyFloat 0 /\
     req_max_tokens request = 100 /\
     req_n request = 1 /\
     exists question,
       last_content messages = Some (ContentStr question) /\
       req_messages request =
         build_messages
           {| bm_model := query_model approach;
              bm_system_prompt := query_prompt_template;
              bm_tools :=
                match approach with
                | TextVariant _ => Some Text.tools
                | VisionVariant _ => None
                end;
              bm_few_shots := Some query_prompt_few_shots;
              bm_past_messages := all_but_last messages;
              bm_new_user_content :=
                ContentStr ("Generate search query for: " ++ question);
              bm_max_tokens := token_limit approach - 100;
              bm_fallback_to_default :=
                match approach with
                | TextVariant _ => ALLOW_NON_GPT_MODELS
                | VisionVariant _ => false
                end |}).
Proof.
  unfold last_content. intros Hrun.
  destruct approach as [self | self]; cbn [run_until_final_call] in Hrun;
    [text_cases env Hrun | vision_cases env Hrun];
    simplify_eq; loop_facts env; simplify_eq; simpl; rewrite ?Hcontent.
  all: split;
    [ intros q Hq; simplify_eq; eauto
    | intros request Hin; which_call Hin;
      repeat (split; [reflexivity |]); eexists; split; reflexivity ].
Qed.

(** ** The answer request of the text variant *)

(** C7. On the grounded path of the text variant the pending completion is
    built from the system prompt of the overrides (which does not take the
    sources), the history, and the original question followed by
    ["\n\nSources:\n"] and the sources joined by newlines, within
    [chatgpt_token_limit - 1024] tokens; it carries the temperature of the
    overrides, 0.3 when the key is missing, at most 1024 output tokens,
    n = 1, the streaming flag and the seed of the caller. *)
Theorem grounded_answer_request `{ChatApproach} (env : Collaborators)
    (self : Text.Approach) (messages : list Message)
    (overrides auth_claims : gmap string PyVal) (should_stream : bool)
    (calls : list Call) (v : RunValue) (args : SearchArgs) (results : list Document) :
  run env (run_until_final_call (TextVariant self) messages overrides auth_claims
             should_stream) = (calls, inr v) ->
  In (Search args) calls ->
  env (Search args) = inr results ->
  results <> [] ->
  exists question,
    last_content messages = Some (ContentStr question) /\
    req_messages (value_coroutine v) =
      build_messages
        {| bm_model := Text.chatgpt_model self;
           bm_system_prompt := system_message_of overrides;
           bm_tools := None;
           bm_few_shots := None;
           bm_past_messages := all_but_last messages;
           bm_new_user_content :=
             ContentStr
               (question ++ sources_header ++
                join nl (get_sources_content results (use_semantic_captions overrides) false));
           bm_max_tokens := Text.chatgpt_token_limit self - 1024;
           bm_fallback_to_default := ALLOW_NON_GPT_MODELS |} /\
    req_temperature (value_coroutine v) =
      default (PyFloat (3 # 10)) (overrides !! "temperature") /\
    req_max_tokens (value_coroutine v) = 1024 /\
    req_n (value_coroutine v) = 1 /\
    req_stream (value_coroutine v) = Some should_stream /\
    req_seed (value_coroutine v) = dict_get overrides "seed".
Proof.
  unfold last_content. intros Hrun Hin Hres Hfound.
  cbn [run_until_final_call] in Hrun.
  text_cases env Hrun; simplify_eq; this_search env Hin Hres; try contradiction.
  all: simpl; rewrite Hcontent; eexists; split; [reflexivity |].
  all: repeat (split; [reflexivity |]); reflexivity.
Qed.

(** ** Images of the vision variant *)

Lemma filter_fetch_embeddings (calls : list Call) :
  forallb is_embedding calls = true -> List.filter is_fetch calls = [].
Proof.
  induction calls as [| c calls IH]; [reflexivity |].
  simpl. rewrite andb_true_iff. intros [Hc Hcalls].
  destruct c; try discriminate; simpl; apply IH; exact Hcalls.
Qed.

Lemma filter_embedding_fetches (calls : list Call) :
  forallb is_fetch calls = true -> List.filter is_embedding calls = [].
Proof.
  induction calls as [| c calls IH]; [reflexivity |].
  simpl. rewrite andb_true_iff. intros [Hc Hcalls].
  destruct c; try discriminate; simpl; apply IH; exact Hcalls.
Qed.

Lemma filter_fetch_fetches (results : list Document) :
  List.filter is_fetch (map FetchImage results) = map FetchImage results.
Proof.
  induction results as [| result results IH]; [reflexivity |].
  simpl. rewrite IH. reflexivity.
Qed.

Lemma image_urls_of_parts (urls : list string) :
  Vision.image_urls (map ImagePart urls) = urls.
Proof.
  unfold Vision.image_urls.
  induction urls as [| u urls IH]; [reflexivity |].
  cbn. f_equal. exact IH.
Qed.

(** C8. In the vision variant, when images are sent ([gpt4v_input] is
    "textAndImages", "images" or none) and the fetch collaborator replies
    for every result of the search, with a URL or with none, then the run
    fetches an image for every result, in retrieval order, and returns; the
    data points list under "images" exactly the URLs that were resolved, in
    that order; and with [gpt4v_input = "images"] the new user content of
    the final prompt is one text part holding the original question followed
    by one image part per resolved URL. *)
Theorem images_follow_results `{ChatApproach} (env : Collaborators)
    (self : Vision.Approach) (messages : list Message)
    (overrides auth_claims : gmap string PyVal) (should_stream : bool)
    (calls : list Call) (out : Exn + RunValue) (args : SearchArgs)
    (results : list Document) :
  run env (run_until_final_call (VisionVariant self) messages overrides auth_claims
             should_stream) = (calls, out) ->
  In (Search args) calls ->
  env (Search args) = inr results ->
  gpt4v_input overrides = PyStr "textAndImages" \/
  gpt4v_input overrides = PyStr "images" \/
  gpt4v_input overrides = PyNone ->
  (forall result, In result results -> exists url, env (FetchImage result) = inr url) ->
  List.filter is_fetch calls = map FetchImage results /\
  exists v,
    out = inr v /\
    value_data_points v !! "images" = Some (resolved_urls env results) /\
    (gpt4v_input overrides = PyStr "images" ->
     exists question,
       last_content messages = Some (ContentStr question) /\
       req_messages (value_coroutine v) =
         build_messages
           {| bm_model := Vision.gpt4v_model self;
              bm_system_prompt := system_message_of overrides;
              bm_tools := None;
              bm_few_shots := None;
              bm_past_messages := all_but_last messages;
              bm_new_user_content :=
                ContentParts (TextPart question :: map ImagePart (resolved_urls env results));
              bm_max_tokens := Vision.chatgpt_token_limit self - 1024;
              bm_fallback_to_default := ALLOW_NON_GPT_MODELS |}).
Proof.
  unfold last_content, gpt4v_input. intros Hrun Hin Hres Hsend Hreplies.
  apply py_in_modes in Hsend.
  cbn [run_until_final_call] in Hrun.
  vision_cases env Hrun; simplify_eq; embed_facts env; fetch_facts env;
    this_search env Hin Hres; try discriminate Hsend.
  all: rewrite (fetch_images_completes env _ _ Hreplies) in Hloop0 || 
       rewrite (fetch_images_completes env _ _ Hreplies) in Hloop.
  all: simplify_eq.
  all: split;
    [ cbn [List.filter is_fetch];
      rewrite ?List.filter_app, ?filter_fetch_embeddings by assumption;
      cbn [List.filter is_fetch app];
      rewrite ?app_nil_r; apply filter_fetch_fetches
    | eexists; split; [reflexivity |] ].
  all: cbn [value_data_points value_coroutine data_points req_messages app].
  all: split;
    [ rewrite lookup_insert_ne by discriminate;
      rewrite lookup_singleton_eq, image_urls_of_parts; reflexivity
    | intros Hmode; rewrite Hmode; simpl; rewrite Hcontent;
      eexists; split; reflexivity ].
Qed.

(** ** Unknown retrieval modes *)

(** C10. When [retrieval_mode] holds a value other than "text", "vectors" and
    "hybrid" (and is not left out), both variants turn text search and
    vector search off and compute no embedding, and every search they make
    gets no vector and both flags false.  The request is not rejected: when
    the last message is a plain string and the query-rewriting call
    replies, the search is the next call made. *)
Theorem unknown_retrieval_mode_disables_matching `{ChatApproach} (env : Collaborators)
    (approach : Variant) (messages : list Message)
    (overrides auth_claims : gmap string PyVal) (should_stream : bool)
    (calls : list Call) (out : Exn + RunValue) :
  run env (run_until_final_call approach messages overrides auth_claims should_stream)
    = (calls, out) ->
  retrieval_mode overrides <> PyNone ->
  retrieval_mode overrides <> PyStr "text" ->
  retrieval_mode overrides <> PyStr "vectors" ->
  retrieval_mode overrides <> PyStr "hybrid" ->
  use_text_search overrides = false /\
  use_vector_search overrides = false /\
  List.filter is_embedding calls = [] /\
  (forall args,
     In (Search args) calls ->
     arg_vectors args = [] /\
     arg_use_text_search args = false /\
     arg_use_vector_search args = false) /\
  (forall question,
     last_content messages = Some (ContentStr question) ->
     (forall request, exists completion, env (Create request) = inr completion) ->
     exists request args rest,
       calls = Create request :: Search args :: rest /\
       arg_vectors args = [] /\
       arg_use_text_search args = false /\
       arg_use_vector_search args = false).
Proof.
  intros Hrun Hnone Htext Hvectors Hhybrid.
  assert (Hnotext : use_text_search overrides = false).
  { destruct (use_text_search overrides) eqn:E; [| reflexivity].
    apply use_text_search_iff in E. tauto. }
  assert (Hnovector : use_vector_search overrides = false).
  { destruct (use_vector_search overrides) eqn:E; [| reflexivity].
    apply use_vector_search_iff in E. tauto. }
  split; [exact Hnotext |]. split; [exact Hnovector |].
  clear Hnone Htext Hvectors Hhybrid. unfold last_content.
  destruct approach as [self | self]; cbn [run_until_final_call] in Hrun;
    [text_cases env Hrun | vision_cases env Hrun];
    simplify_eq; fetch_facts env.
  all: split;
    [ cbn [List.filter is_embedding];
      rewrite ?List.filter_app, ?filter_embedding_fetches by assumption; reflexivity |].
  all: split;
    [ intros args Hin; which_call Hin; repeat split; assumption
    | intros asked Hasked Hcreate ].
  all: simpl in Hasked; rewrite ?Hcontent in Hasked; try discriminate Hasked.
  all: try match goal with
           | Hreply : _ (Create ?request) = inl _ |- _ =>
               destruct (Hcreate request) as [completion Hcompletion];
               rewrite Hcompletion in Hreply; discriminate Hreply
           end.
  all: eexists; eexists; eexists; split; [reflexivity | repeat split; assumption].
Qed.

(** ** The shape of the returned value *)

Section ReturnShape.
Context `{ChatApproach}.
Variable env : Collaborators.

(** The text variant returns a pair exactly when the search found
    something; otherwise it returns one dictionary of three keys. *)
Lemma text_return_shape self messages overrides auth_claims should_stream
    calls v args results :
  run env (Text.run_until_final_call self messages overrides auth_claims should_stream)
    = (calls, inr v) ->
  In (Search args) calls ->
  env (Search args) = inr results ->
  is_pair v = match results with [] => false | _ :: _ => true end.
Proof.
  intros Hrun Hin Hres.
  text_cases env Hrun; simplify_eq; this_search env Hin Hres; reflexivity.
Qed.

(** The vision variant always returns a pair. *)
Lemma vision_return_shape self messages overrides auth_claims should_stream calls v :
  run env (Vision.run_until_final_call self messages overrides auth_claims should_stream)
    = (calls, inr v) ->
  is_pair v = true.
Proof. intros Hrun. vision_cases env Hrun; simplify_eq; reflexivity. Qed.
End ReturnShape.

(** ** Runs that return *)

Section Returns.
Context `{ChatApproach}.
Variable env : Collaborators.
Hypothesis replies : forall c, exists r, env c = inr r.

Lemma embed_fields_completes (q : string) (items : list PyVal) :
  forall vectors, exists calls embedded,
    run env (Vision.embed_fields q items vectors) = (calls, inr embedded).
Proof.
  induction items as [| field rest IH]; intros vectors; [simpl; eauto |].
  cbn [Vision.embed_fields]. rewrite run_bind.
  destruct (py_eqb field (PyStr "embedding"));
    [ rewrite run_text_embedding; destruct (replies (EmbedText q)) as [v ->]
    | rewrite run_image_embedding; destruct (replies (EmbedImage q)) as [v ->] ].
  all: match goal with
       | |- context [run env (Vision.embed_fields _ _ ?acc)] =>
           destruct (IH acc) as (calls & embedded & ->)
       end; eauto.
Qed.

(** A collaborator that replies does not fail. *)
Ltac no_failure :=
  match goal with
  | Hreply : env ?c = inl _ |- _ =>
      let r := fresh "r" in
      let Hr := fresh "Hr" in
      destruct (replies c) as [r Hr]; rewrite Hr in Hreply; discriminate Hreply
  end.

(** When every collaborator replies, a request whose last message is a
    plain string returns, in the text variant always and in the vision
    variant as soon as [vector_fields] can be iterated. *)
Lemma returns_when_collaborators_reply (approach : Variant) (messages : list Message)
    (overrides auth_claims : gmap string PyVal) (should_stream : bool) (question : string) :
  last_content messages = Some (ContentStr question) ->
  match approach with
  | TextVariant _ => True
  | VisionVariant _ =>
      use_vector_search overrides = true ->
      exists items,
        Vision.py_iter (dict_get_or overrides "vector_fields" (PyList [PyStr "embedding"]))
          = inr items
  end ->
  exists v,
    outcome_of env
      (run_until_final_call approach messages overrides auth_claims should_stream) = inr v.
Proof.
  unfold outcome_of, last_content. intros Hquestion Hfields.
  destruct (run env _) as [calls [e | v]] eqn:Hrun; [exfalso | simpl; eauto].
  destruct approach as [self | self]; cbn [run_until_final_call] in Hrun;
    [text_cases env Hrun | vision_cases env Hrun]; simplify_eq; try no_failure.
  all: simpl in Hquestion; rewrite ?Hcontent in Hquestion; try discriminate Hquestion.
  - destruct (Hfields eq_refl) as [items Hitems]. congruence.
  - destruct (embed_fields_completes (get_search_query reply question) items [])
      as (calls' & embedded & Hdone). congruence.
  - rewrite fetch_images_completes in Hloop0 by (intros result _; apply replies).
    discriminate Hloop0.
  - rewrite fetch_images_completes in Hloop by (intros result _; apply replies).
    discriminate Hloop.
Qed.
End Returns.

(** ** The thoughts of the grounded path *)

Section Reached.
Context `{ChatApproach}.
Variable env : Collaborators.

(** A run that returns has reached the search, and the search replied. *)
Lemma returning_run_searched approach messages overrides auth_claims should_stream calls v :
  run env (run_until_final_call approach messages overrides auth_claims should_stream)
    = (calls, inr v) ->
  exists args results, In (Search args) calls /\ env (Search args) = inr results.
Proof.
  intros Hrun.
  destruct approach as [self | self]; cbn [run_until_final_call] in Hrun;
    [text_cases env Hrun | vision_cases env Hrun]; simplify_eq.
  all: eexists; eexists; split; [in_calls | eassumption].
Qed.
End Reached.

(** C4. The grounded path of either variant, that is a run none of whose
    searches comes back empty.  When such a run returns it has reached the
    search, the search found results, and the thought trace has exactly
    four steps, in the order: prompt of the query-rewriting call, query
    text passed to the search, serialized results in retrieval order,
    prompt of the pending answer.  And it does return whenever the last
    message is a plain string and the collaborators reply (in the vision
    variant with vector search, [vector_fields] must be iterable). *)
Theorem grounded_path_has_four_thoughts `{ChatApproach} (env : Collaborators)
    (approach : Variant) (messages : list Message)
    (overrides auth_claims : gmap string PyVal) (should_stream : bool)
    (calls : list Call) (out : Exn + RunValue) :
  run env (run_until_final_call approach messages overrides auth_claims should_stream)
    = (calls, out) ->
  (forall args, In (Search args) calls -> env (Search args) <> inr []) ->
  (forall v,
     out = inr v ->
     exists query_request args results,
       In (Create query_request) calls /\
       In (Search args) calls /\
       env (Search args) = inr results /\
       results <> [] /\
       four_thoughts (value_thoughts v) (req_messages query_request)
         (arg_query_text args) (map serialize_for_results results)
         (req_messages (value_coroutine v))) /\
  (forall question,
     last_content messages = Some (ContentStr question) ->
     (forall c, exists r, env c = inr r) ->
     match approach with
     | TextVariant _ => True
     | VisionVariant _ =>
         use_vector_search overrides = true ->
         exists items,
           Vision.py_iter
             (dict_get_or overrides "vector_fields" (PyList [PyStr "embedding"]))
             = inr items
     end ->
     exists v, out = inr v).
Proof.
  intros Hrun Hfound. split.
  - intros v ->.
    destruct (returning_run_searched env _ _ _ _ _ _ _ Hrun) as (args & results & Hin & Hres).
    assert (Hsome : results <> []).
    { intros ->. exact (Hfound args Hin Hres). }
    assert (Hthoughts : exists query_request,
               In (Create query_request) calls /\
               four_thoughts (value_thoughts v) (req_messages query_request)
                 (arg_query_text args) (map serialize_for_results results)
                 (req_messages (value_coroutine v))).
    { destruct approach as [self | self].
      - exact (text_grounded_thoughts env _ _ _ _ _ _ _ _ _ Hrun Hin Hres Hsome).
      - exact (vision_grounded_thoughts env _ _ _ _ _ _ _ _ _ Hrun Hin Hres). }
    destruct Hthoughts as (query_request & Hcreate & Hfour).
    exists query_request, args, results. auto.
  - intros question Hquestion Hreplies Hfields.
    destruct (returns_when_collaborators_reply env Hreplies approach messages overrides
                auth_claims should_stream question Hquestion Hfields) as [v Hv].
    unfold outcome_of in Hv. rewrite Hrun in Hv. eauto.
Qed.

(** Three requests that do not return: an empty history, a last message
    made of parts, and an index that is down. *)
Example empty_history_raises_index_error :
  run (Fixtures.collaborators [])
    (run_until_final_call (H := Fixtures.base) (TextVariant Fixtures.text_approach)
       [] ∅ ∅ false) = ([], inl IndexError).
Proof. reflexivity. Qed.

Example multipart_question_is_rejected :
  run (Fixtures.collaborators [Fixtures.policy])
    (run_until_final_call (H := Fixtures.base) (VisionVariant Fixtures.vision_approach)
       Fixtures.multipart ∅ ∅ false) = ([], inl InputError).
Proof. reflexivity. Qed.

Example search_failure_propagates :
  outcome_of Fixtures.search_down
    (run_until_final_call (H := Fixtures.base) (TextVariant Fixtures.text_approach)
       Fixtures.question ∅ ∅ false) = inl (UpstreamError "503 Service Unavailable").
Proof. reflexivity. Qed.

(** C2, at the failing request: a single user question, no overrides, and an
    index that returns nothing.  The text variant returns one dictionary with
    the keys "data_points", "thoughts" and "chat_coroutine", not the pair of
    metadata and pending completion. *)
Theorem text_no_sources_returns_one_dict :
  exists calls chat_coroutine,
    run (Fixtures.collaborators [])
      (run_until_final_call (H := Fixtures.base) (TextVariant Fixtures.text_approach)
         Fixtures.question ∅ ∅ false)
      = (calls, inr (DictValue ∅ [] chat_coroutine)) /\
    is_pair (DictValue ∅ [] chat_coroutine) = false.
Proof. eexists _, _. split; reflexivity. Qed.

(** ** Worked requests *)

(** An empty index against the vision variant: the data points are not
    empty and the thought trace has its four steps, so the no-sources answer
    does not hold there. *)
Lemma vision_zero_results_still_grounded :
  let env := Fixtures.collaborators [] in
  let coroutine :=
    run_until_final_call (H := Fixtures.base) (VisionVariant Fixtures.vision_approach)
      Fixtures.question ∅ ∅ false in
  (exists calls v,
     run env coroutine = (calls, inr v) /\
     (forall args, In (Search args) calls -> env (Search args) = inr []) /\
     value_data_points v !! "text" = Some [] /\
     length (value_thoughts v) = 4%nat) /\
  ~ answers_without_sources (H := Fixtures.base) env coroutine
      (answer_model (VisionVariant Fixtures.vision_approach))
      (token_limit (VisionVariant Fixtures.vision_approach)) Fixtures.question ∅.
Proof.
  intros env coroutine. split.
  - eexists _, _. split; [reflexivity |].
    split; [intros args _; reflexivity |]. split; reflexivity.
  - intros Hclaim.
    edestruct Hclaim as (Hdp & _); [reflexivity | intros args _; reflexivity |].
    apply (f_equal (fun m : gmap string (list string) => m !! "text")) in Hdp.
    vm_compute in Hdp. discriminate Hdp.
Qed.

Lemma no_sources_answer_witness :
  let env := Fixtures.collaborators [] in
  exists calls v,
    run env
      (run_until_final_call (H := Fixtures.base) (TextVariant Fixtures.text_approach)
         Fixtures.question ∅ ∅ false) = (calls, inr v) /\
    (forall args, In (Search args) calls -> env (Search args) = inr []) /\
    value_data_points v = ∅ /\
    value_thoughts v = [].
Proof.
  intros env. eexists _, _. split; [reflexivity |].
  split; [intros args _; reflexivity |].
  destruct (no_sources_answer (H := Fixtures.base) env Fixtures.question ∅ ∅ false)
    as [Htext _].
  destruct (Htext Fixtures.text_approach _ _ eq_refl) as (Hdp & Hth & _).
  - intros args _. reflexivity.
  - split; [exact Hdp | exact Hth].
Defined.

Lemma grounded_path_has_four_thoughts_witness :
  let env := Fixtures.collaborators [Fixtures.policy; Fixtures.chart] in
  let titles :=
    [ "Prompt to generate search query"; "Search using generated search query";
      "Search results"; "Prompt to generate answer" ] in
  (exists v,
     outcome_of env
       (run_until_final_call (H := Fixtures.base) (TextVariant Fixtures.text_approach)
          Fixtures.question {[ "retrieval_mode" := PyStr "text" ]} ∅ false) = inr v /\
     map title (value_thoughts v) = titles) /\
  (exists v,
     outcome_of env
       (run_until_final_call (H := Fixtures.base) (VisionVariant Fixtures.vision_approach)
          Fixtures.question ∅ ∅ false) = inr v /\
     map title (value_thoughts v) = titles).
Proof.
  intros env titles.
  assert (Hreplies : forall c, exists r, env c = inr r)
    by (intros c; destruct c; eexists; reflexivity).
  split.
  - pose (coroutine :=
            run_until_final_call (H := Fixtures.base) (TextVariant Fixtures.text_approach)
              Fixtures.question {[ "retrieval_mode" := PyStr "text" ]} ∅ false).
    destruct (grounded_path_has_four_thoughts (H := Fixtures.base) env
                (TextVariant Fixtures.text_approach) Fixtures.question
                {[ "retrieval_mode" := PyStr "text" ]} ∅ false
                (calls_of env coroutine) (outcome_of env coroutine)
                (surjective_pairing _))
      as [Hthoughts Hreturns].
    + intros args _. discriminate.
    + destruct (Hreturns "What is the return policy?" eq_refl Hreplies I) as [v Hv].
      destruct (Hthoughts v Hv) as (request & args & results & _ & _ & _ & _ & Htitles & _).
      exists v. split; [exact Hv | exact Htitles].
  - pose (coroutine :=
            run_until_final_call (H := Fixtures.base) (VisionVariant Fixtures.vision_approach)
              Fixtures.question ∅ ∅ false).
    destruct (grounded_path_has_four_thoughts (H := Fixtures.base) env
                (VisionVariant Fixtures.vision_approach) Fixtures.question ∅ ∅ false
                (calls_of env coroutine) (outcome_of env coroutine)
                (surjective_pairing _))
      as [Hthoughts Hreturns].
    + intros args _. discriminate.
    + destruct (Hreturns "What is the return policy?" eq_refl Hreplies) as [v Hv].
      { intros _. eexists. reflexivity. }
      destruct (Hthoughts v Hv) as (request & args & results & _ & _ & _ & _ & Htitles & _).
      exists v. split; [exact Hv | exact Htitles].
Defined.

Lemma retrieval_mode_selects_search_witness :
  let env := Fixtures.collaborators [Fixtures.policy] in
  let overrides : gmap string PyVal := {[ "retrieval_mode" := PyStr "vectors" ]} in
  let coroutine :=
    run_until_final_call (H := Fixtures.base) (TextVariant Fixtures.text_approach)
      Fixtures.question overrides ∅ false in
  use_text_search overrides = false /\
  use_vector_search overrides = true /\
  exists args embedding,
    In (Search args) (calls_of env coroutine) /\
    List.filter is_embedding (calls_of env coroutine) = [EmbedText "return policy"] /\
    arg_vectors args = [embedding].
Proof.
  intros env overrides coroutine.
  destruct (retrieval_mode_selects_search (H := Fixtures.base) env Fixtures.text_approach
              Fixtures.question overrides ∅ false
              (calls_of env coroutine) (outcome_of env coroutine) eq_refl)
    as (_ & _ & _ & _ & Hsearch).
  split; [reflexivity |]. split; [reflexivity |].
  eexists. 
  destruct (Hsearch (mkSearchArgs (PyInt 3) "return policy" None
                       [mkVectorQuery [1 # 2; 1 # 4] "embedding"] false true false false
                       (PyFloat 0) (PyFloat 0)))
    as (_ & _ & embedding & Hone & _ & Hvectors).
  - right. right. left. reflexivity.
  - exists embedding. split; [right; right; left; reflexivity |].
    split; [exact Hone | exact Hvectors].
Defined.

Lemma query_rewriting_call_is_fixed_witness :
  let env := Fixtures.collaborators [Fixtures.policy] in
  let overrides : gmap string PyVal := {[ "temperature" := PyFloat (9 # 10) ]} in
  let coroutine :=
    run_until_final_call (H := Fixtures.base) (VisionVariant Fixtures.vision_approach)
      Fixtures.question overrides ∅ true in
  exists request rest,
    calls_of env coroutine = Create request :: rest /\
    req_temperature request = PyFloat 0 /\
    req_max_tokens request = 100 /\
    req_n request = 1.
Proof.
  intros env overrides coroutine.
  destruct (query_rewriting_call_is_fixed (H := Fixtures.base) env
              (VisionVariant Fixtures.vision_approach) Fixtures.question overrides ∅ true
              (calls_of env coroutine) (outcome_of env coroutine) eq_refl)
    as [Hfirst Hevery].
  destruct (Hfirst "What is the return policy?" eq_refl) as (request & rest & Hcalls).
  exists request, rest. split; [exact Hcalls |].
  destruct (Hevery request) as (Htemperature & Htokens & Hn & _).
  - rewrite Hcalls. left. reflexivity.
  - split; [exact Htemperature |]. split; [exact Htokens | exact Hn].
Defined.

Lemma grounded_answer_request_witness :
  let env := Fixtures.collaborators [Fixtures.policy; Fixtures.faq] in
  let overrides : gmap string PyVal :=
    {[ "temperature" := PyFloat (7 # 10); "seed" := PyInt 42 ]} in
  exists v,
    outcome_of env
      (run_until_final_call (H := Fixtures.base) (TextVariant Fixtures.text_approach)
         Fixtures.question overrides ∅ true) = inr v /\
    req_temperature (value_coroutine v) = PyFloat (7 # 10) /\
    req_max_tokens (value_coroutine v) = 1024 /\
    req_n (value_coroutine v) = 1 /\
    req_stream (value_coroutine v) = Some true /\
    req_seed (value_coroutine v) = PyInt 42.
Proof.
  intros env overrides. eexists. split; [reflexivity |].
  edestruct (grounded_answer_request (H := Fixtures.base) env Fixtures.text_approach
               Fixtures.question overrides ∅ true)
    as (question & _ & _ & Htemperature & Htokens & Hn & Hstream & Hseed).
  - reflexivity.
  - right. right. left. reflexivity.
  - reflexivity.
  - discriminate.
  - split; [exact Htemperature |]. split; [exact Htokens |]. split; [exact Hn |].
    split; [exact Hstream | exact Hseed].
Defined.

Lemma images_follow_results_witness :
  let results := [Fixtures.policy; Fixtures.faq; Fixtures.chart] in
  let env := Fixtures.collaborators results in
  let overrides : gmap string PyVal := {[ "gpt4v_input" := PyStr "images" ]} in
  let coroutine :=
    run_until_final_call (H := Fixtures.base) (VisionVariant Fixtures.vision_approach)
      Fixtures.question overrides ∅ false in
  List.filter is_fetch (calls_of env coroutine) = map FetchImage results /\
  exists v,
    outcome_of env coroutine = inr v /\
    value_data_points v !! "images" =
      Some ["https://blobs/policy-3.png"; "https://blobs/chart-2.png"] /\
    req_messages (value_coroutine v) =
      [ mkMessage "system" (ContentStr "You are an assistant. ");
        mkMessage "user"
          (ContentParts
             [ TextPart "What is the return policy?";
               ImagePart "https://blobs/policy-3.png";
               ImagePart "https://blobs/chart-2.png" ]) ].
Proof.
  intros results env overrides coroutine.
  edestruct (images_follow_results (H := Fixtures.base) env Fixtures.vision_approach
               Fixtures.question overrides ∅ false
               (calls_of env coroutine) (outcome_of env coroutine))
    as (Hfetches & v & Hout & Himages & Hcontent).
  - reflexivity.
  - right. right. left. reflexivity.
  - reflexivity.
  - right. left. reflexivity.
  - intros result _. eexists. reflexivity.
  - split; [exact Hfetches |]. exists v. split; [exact Hout |].
    split; [exact Himages |].
    destruct (Hcontent eq_refl) as (question & Hquestion & Hprompt).
    injection Hquestion as <-. exact Hprompt.
Defined.

Lemma unknown_retrieval_mode_disables_matching_witness :
  let env := Fixtures.collaborators [Fixtures.policy] in
  let overrides : gmap string PyVal := {[ "retrieval_mode" := PyStr "none" ]} in
  let text :=
    run_until_final_call (H := Fixtures.base) (TextVariant Fixtures.text_approach)
      Fixtures.question overrides ∅ false in
  let vision :=
    run_until_final_call (H := Fixtures.base) (VisionVariant Fixtures.vision_approach)
      Fixtures.question overrides ∅ false in
  use_text_search overrides = false /\
  use_vector_search overrides = false /\
  (exists request args rest,
     calls_of env text = Create request :: Search args :: rest /\
     arg_vectors args = [] /\
     arg_use_text_search args = false /\
     arg_use_vector_search args = false) /\
  (exists request args rest,
     calls_of env vision = Create request :: Search args :: rest /\
     arg_vectors args = [] /\
     arg_use_text_search args = false /\
     arg_use_vector_search args = false).
Proof.
  intros env overrides text vision.
  assert (Hcreate : forall request, exists completion, env (Create request) = inr completion)
    by (intros request; eexists; reflexivity).
  destruct (unknown_retrieval_mode_disables_matching (H := Fixtures.base) env
              (TextVariant Fixtures.text_approach) Fixtures.question overrides ∅ false
              (calls_of env text) (outcome_of env text) (surjective_pairing _))
    as (Htext & Hvector & _ & _ & Hreached); try discriminate.
  destruct (unknown_retrieval_mode_disables_matching (H := Fixtures.base) env
              (VisionVariant Fixtures.vision_approach) Fixtures.question overrides ∅ false
              (calls_of env vision) (outcome_of env vision) (surjective_pairing _))
    as (_ & _ & _ & _ & Hreached'); try discriminate.
  split; [exact Htext |]. split; [exact Hvector |]. split.
  - exact (Hreached "What is the return policy?" eq_refl Hcreate).
  - exact (Hreached' "What is the return policy?" eq_refl Hcreate).
Defined.

(** ** The order of the calls *)

Section Protocol.
Context `{ChatApproach}.
Variable env : Collaborators.

(** Close a protocol goal whose calls are known up to the loops. *)
Ltac protocol_shape :=
  right;
  lazymatch goal with
  | |- exists request embeddings tail, [Create ?r] = _ /\ _ =>
      exists r, [], []
  | |- exists request embeddings tail, [Create ?r; Search ?a] = _ /\ _ =>
      exists r, [], [Search a]
  | |- exists request embeddings tail, [Create ?r; EmbedText ?q] = _ /\ _ =>
      exists r, [EmbedText q], []
  | |- exists request embeddings tail, [Create ?r; EmbedText ?q; Search ?a] = _ /\ _ =>
      exists r, [EmbedText q], [Search a]
  | |- exists request embeddings tail, (Create ?r :: ?e ++ ?t)%list = _ /\ _ =>
      exists r, e, t
  | |- exists request embeddings tail, (Create ?r :: ?e)%list = _ /\ _ =>
      exists r, e, []
  end.

Lemma text_follows_protocol self messages overrides auth_claims should_stream calls out :
  run env (Text.run_until_final_call self messages overrides auth_claims should_stream)
    = (calls, out) ->
  follows_protocol calls /\
  List.filter is_fetch calls = [] /\
  (forall q, ~ In (EmbedImage q) calls) /\
  (length (List.filter is_embedding calls) <= 1)%nat.
Proof.
  intros Hrun. text_cases env Hrun; simplify_eq.
  all: split; [first [left; reflexivity | protocol_shape] |].
  all: try (split; [reflexivity |]; split; [reflexivity |]; eauto 6).
  all: split; [reflexivity |]; split;
    [intros q' Hin; which_call Hin | cbn; lia].
Qed.
End Protocol.

Lemma protocol_intro (calls : list Call) (request : CompletionRequest)
    (embeddings tail : list Call) :
  calls = (Create request :: embeddings ++ tail)%list ->
  forallb is_embedding embeddings = true ->
  (tail = [] \/
   exists args fetches, tail = Search args :: fetches /\ forallb is_fetch fetches = true) ->
  follows_protocol calls.
Proof. intros Hcalls Hembeddings Htail. right. eauto 6. Qed.

Section VisionProtocol.
Context `{ChatApproach}.
Variable env : Collaborators.

Lemma vision_follows_protocol self messages overrides auth_claims should_stream calls out :
  run env (Vision.run_until_final_call self messages overrides auth_claims should_stream)
    = (calls, out) ->
  follows_protocol calls.
Proof.
  intros Hrun. vision_cases env Hrun; simplify_eq; embed_facts env; fetch_facts env.
  all: rewrite ?app_nil_r.
  all: try (left; reflexivity).
  all: lazymatch goal with
       | |- follows_protocol (Create ?r :: ?e ++ ?t)%list =>
           apply (protocol_intro _ r e t eq_refl)
       | |- follows_protocol (Create ?r :: Search ?a :: ?f) =>
           apply (protocol_intro _ r [] (Search a :: f) eq_refl)
       | |- follows_protocol [Create ?r] =>
           apply (protocol_intro _ r [] [] eq_refl)
       | |- follows_protocol (Create ?r :: ?e) =>
           apply (protocol_intro _ r e []); [rewrite app_nil_r; reflexivity | |]
       end.
  all: try assumption; try reflexivity; eauto.
Qed.
End VisionProtocol.

(** X1. The calls of a request, of either variant, come in a fixed order:
    the query-rewriting completion first, then embeddings, then at most one
    search, then image fetches.  The text variant fetches no image, never
    asks for an image embedding, and computes at most one embedding. *)
Theorem calls_follow_protocol `{ChatApproach} (env : Collaborators)
    (approach : Variant) (messages : list Message)
    (overrides auth_claims : gmap string PyVal) (should_stream : bool)
    (calls : list Call) (out : Exn + RunValue) :
  run env (run_until_final_call approach messages overrides auth_claims should_stream)
    = (calls, out) ->
  follows_protocol calls /\
  (forall self,
     approach = TextVariant self ->
     List.filter is_fetch calls = [] /\
     (forall q, ~ In (EmbedImage q) calls) /\
     (length (List.filter is_embedding calls) <= 1)%nat).
Proof.
  intros Hrun. destruct approach as [self | self]; cbn [run_until_final_call] in Hrun.
  - destruct (text_follows_protocol env _ _ _ _ _ _ _ Hrun) as [Hprotocol Htext].
    split; [exact Hprotocol | intros self' _; exact Htext].
  - split; [exact (vision_follows_protocol env _ _ _ _ _ _ _ Hrun) | discriminate].
Qed.

(** ** The final completion is left to the caller *)

Lemma filter_create_embeddings (calls : list Call) :
  forallb is_embedding calls = true -> List.filter is_create calls = [].
Proof.
  induction calls as [| c calls IH]; [reflexivity |].
  simpl. rewrite andb_true_iff. intros [Hc Hcalls].
  destruct c; try discriminate; simpl; apply IH; exact Hcalls.
Qed.

Lemma filter_create_fetches (calls : list Call) :
  forallb is_fetch calls = true -> List.filter is_create calls = [].
Proof.
  induction calls as [| c calls IH]; [reflexivity |].
  simpl. rewrite andb_true_iff. intros [Hc Hcalls].
  destruct c; try discriminate; simpl; apply IH; exact Hcalls.
Qed.

(** X2. A run that returns has awaited exactly one completion, the
    query-rewriting one with its 100 output tokens; the completion it hands
    back is not among the calls made: it is left to the caller. *)
Theorem final_completion_is_not_awaited `{ChatApproach} (env : Collaborators)
    (approach : Variant) (messages : list Message)
    (overrides auth_claims : gmap string PyVal) (should_stream : bool)
    (calls : list Call) (v : RunValue) :
  run env (run_until_final_call approach messages overrides auth_claims should_stream)
    = (calls, inr v) ->
  ~ In (Create (value_coroutine v)) calls /\
  exists request,
    List.filter is_create calls = [Create request] /\ req_max_tokens request = 100.
Proof.
  intros Hrun.
  destruct approach as [self | self]; cbn [run_until_final_call] in Hrun;
    [text_cases env Hrun | vision_cases env Hrun];
    simplify_eq; embed_facts env; fetch_facts env.
  all: split; [intros Hin; which_call Hin |].
  all: eexists; split;
    [ repeat first
        [ rewrite List.filter_app
        | rewrite app_nil_r
        | rewrite filter_create_embeddings by assumption
        | rewrite filter_create_fetches by assumption
        | progress cbn [List.filter is_create app] ];
      reflexivity
    | reflexivity ].
Qed.

(** ** How a request ends *)

Lemma run_replied {A : Type} (env : Collaborators) (m : Coro A) :
  forall calls a, run env m = (calls, inr a) -> Forall (replied env) calls.
Proof.
  induction m as [a0 | e | c k IH]; intros calls a Hrun; simpl in Hrun.
  - injection Hrun as <- _. constructor.
  - discriminate Hrun.
  - destruct (env c) as [detail | r] eqn:Hc; [discriminate Hrun |].
    destruct (run env (k r)) as [calls' out'] eqn:Hk.
    injection Hrun as <- ->. constructor; [exists r; exact Hc | eapply IH; exact Hk].
Qed.

(** The last call of a path, once the last call of a failed loop is known. *)
Ltac last_call :=
  repeat first
    [ rewrite last_cons
    | rewrite last_app
    | rewrite last_nil
    | progress cbn [last]
    | match goal with
      | Hlast : last ?calls = Some _ |- context [last ?calls] => rewrite Hlast
      end ].

Section LoopFailures.
Variable env : Collaborators.

Lemma embed_fields_failure (q : string) (items : list PyVal) :
  forall vectors calls e,
    run env (Vision.embed_fields q items vectors) = (calls, inl e) ->
    exists c detail, last calls = Some c /\ env c = inl detail /\ e = UpstreamError detail.
Proof.
  induction items as [| field rest IH]; intros vectors calls e Hrun; [discriminate Hrun |].
  cbn [Vision.embed_fields] in Hrun. rewrite run_bind in Hrun.
  destruct (py_eqb field (PyStr "embedding"));
    [ rewrite run_text_embedding in Hrun; destruct (env (EmbedText q)) as [detail | v] eqn:Hc
    | rewrite run_image_embedding in Hrun; destruct (env (EmbedImage q)) as [detail | v] eqn:Hc ].
  all: try (injection Hrun as <- <-; eexists _, _; split; [reflexivity | eauto]).
  all: match type of Hrun with
       | context [run env ?m] => destruct (run env m) as [calls' out'] eqn:E
       end;
    injection Hrun as <- ->;
    destruct (IH _ _ _ E) as (c & detail & Hlast & Hfail & He);
    exists c, detail; split; [last_call; reflexivity | eauto].
Qed.

Lemma fetch_images_failure (results : list Document) :
  forall image_list calls e,
    run env (Vision.fetch_images results image_list) = (calls, inl e) ->
    exists c detail, last calls = Some c /\ env c = inl detail /\ e = UpstreamError detail.
Proof.
  induction results as [| result rest IH]; intros image_list calls e Hrun;
    [discriminate Hrun |].
  cbn [Vision.fetch_images] in Hrun. rewrite run_bind, run_fetch_image in Hrun.
  destruct (env (FetchImage result)) as [detail | url] eqn:Hc.
  - injection Hrun as <- <-. eexists _, _. split; [reflexivity | eauto].
  - match type of Hrun with
    | context [run env ?m] => destruct (run env m) as [calls' out'] eqn:E
    end.
    injection Hrun as <- ->.
    destruct (IH _ _ _ E) as (c & detail & Hlast & Hfail & He).
    exists c, detail. split; [last_call; reflexivity | eauto].
Qed.
End LoopFailures.

(** All the calls of a path replied. *)
Ltac all_replied :=
  repeat first
    [ apply List.Forall_nil
    | apply List.Forall_cons; [eexists; eassumption |]
    | apply Forall_app; split
    | assumption ].

(** X3. How a request ends.  It returns only if every call replied and the
    last message is a plain string; [IndexError] means an empty message
    list and [ValueError] the input check, both before any call;
    [TypeError] only arises in the vision variant, with vector search on and
    a [vector_fields] that cannot be iterated; any other exception is the
    one of the last call made, which failed. *)
Theorem how_a_request_ends `{ChatApproach} (env : Collaborators)
    (approach : Variant) (messages : list Message)
    (overrides auth_claims : gmap string PyVal) (should_stream : bool)
    (calls : list Call) (out : Exn + RunValue) :
  run env (run_until_final_call approach messages overrides auth_claims should_stream)
    = (calls, out) ->
  match out with
  | inr v =>
      Forall (replied env) calls /\
      exists question, last_content messages = Some (ContentStr question)
  | inl IndexError => messages = [] /\ calls = []
  | inl (ValueError msg) => ValueError msg = InputError /\ calls = []
  | inl (TypeError msg) =>
      (exists self, approach = VisionVariant self) /\
      use_vector_search overrides = true /\
      Vision.py_iter (dict_get_or overrides "vector_fields" (PyList [PyStr "embedding"]))
        = inl (TypeError msg)
  | inl (UpstreamError detail) =>
      exists c, last calls = Some c /\ env c = inl detail
  end.
Proof.
  unfold last_content. intros Hrun.
  destruct approach as [self | self]; cbn [run_until_final_call] in Hrun;
    [text_cases env Hrun | vision_cases env Hrun]; simplify_eq.
  all: try (apply last_None in Hlast; split; [exact Hlast | reflexivity]).
  all: try (split; reflexivity).
  all: try (eexists; split; [last_call; reflexivity | eassumption]).
  all: repeat match goal with
         | Hloop : run _ _ = (_, inr _) |- _ => apply run_replied in Hloop
         | Hloop : run _ (Vision.embed_fields _ _ _) = (_, inl _) |- _ =>
             apply embed_fields_failure in Hloop as (? & ? & ? & ? & ->)
         | Hloop : run _ (Vision.fetch_images _ _) = (_, inl _) |- _ =>
             apply fetch_images_failure in Hloop as (? & ? & ? & ? & ->)
         | Hiter : Vision.py_iter _ = inl ?e |- _ =>
             let Htype := fresh "Htype" in
             destruct (py_iter_raises _ _ Hiter) as [? Htype]; subst e
         end.
  all: try (eexists; split; [last_call; reflexivity | eassumption]).
  all: try (split; [all_replied | simpl; rewrite Hcontent; eauto]).
  all: split; [eauto | split; reflexivity].
Qed.

(** ** Vector fields of the vision variant *)

Section VectorFields.
Context `{ChatApproach}.
Variable env : Collaborators.

Lemma embed_fields_returns (q : string) (items : list PyVal) :
  forall vectors calls embedded,
    run env (Vision.embed_fields q items vectors) = (calls, inr embedded) ->
    calls = map (embedding_call q) items /\
    exists new,
      embedded = (vectors ++ new)%list /\
      Forall2 (fun field v => embedding_reply env q field = inr v) items new.
Proof.
  induction items as [| field rest IH]; intros vectors calls embedded Hrun.
  - injection Hrun as <- <-. split; [reflexivity |].
    exists []. split; [rewrite app_nil_r; reflexivity | constructor].
  - cbn [Vision.embed_fields] in Hrun. rewrite run_bind in Hrun.
    destruct (py_eqb field (PyStr "embedding")) eqn:Hfield;
      [ rewrite run_text_embedding in Hrun;
        destruct (env (EmbedText q)) as [detail | v] eqn:Hc
      | rewrite run_image_embedding in Hrun;
        destruct (env (EmbedImage q)) as [detail | v] eqn:Hc ];
      try discriminate Hrun.
    all: match type of Hrun with
         | context [run env ?m] => destruct (run env m) as [calls' out'] eqn:E
         end;
      injection Hrun as <- ->;
      destruct (IH _ _ _ E) as (-> & new & -> & Hnew);
      (split; [cbn [map]; unfold embedding_call; rewrite Hfield; reflexivity |]);
      exists (v :: new); (split; [rewrite <- app_assoc; reflexivity |]);
      constructor; [unfold embedding_reply; rewrite Hfield; exact Hc | exact Hnew].
Qed.

Lemma filter_embedding_calls (q : string) (items : list PyVal) :
  List.filter is_embedding (map (embedding_call q) items) = map (embedding_call q) items.
Proof.
  induction items as [| field rest IH]; [reflexivity |].
  cbn [map List.filter]. unfold embedding_call at 1.
  destruct (py_eqb field (PyStr "embedding")); cbn [is_embedding]; rewrite IH; reflexivity.
Qed.

Lemma forallb_embedding_calls (q : string) (items : list PyVal) :
  forallb is_embedding (map (embedding_call q) items) = true.
Proof.
  induction items as [| field rest IH]; [reflexivity |].
  cbn [map forallb]. rewrite IH. unfold embedding_call.
  destruct (py_eqb field (PyStr "embedding")); reflexivity.
Qed.

Lemma vision_vector_fields self messages overrides auth_claims should_stream
    calls out args items :
  run env (Vision.run_until_final_call self messages overrides auth_claims should_stream)
    = (calls, out) ->
  In (Search args) calls ->
  use_vector_search overrides = true ->
  Vision.py_iter (dict_get_or overrides "vector_fields" (PyList [PyStr "embedding"]))
    = inr items ->
  List.filter is_embedding calls = map (embedding_call (arg_query_text args)) items /\
  Forall2 (fun field v => embedding_reply env (arg_query_text args) field = inr v)
    items (arg_vectors args).
Proof.
  intros Hrun Hin Hon Hitems.
  vision_cases env Hrun; simplify_eq; fetch_facts env.
  all: match goal with
       | Hloop : run env (Vision.embed_fields _ _ _) = (_, inr _) |- _ =>
           apply embed_fields_returns in Hloop as (-> & new & -> & Hnew);
           pose proof (forallb_embedding_calls (get_search_query reply question) items)
       | Hloop : run env (Vision.embed_fields _ _ _) = (_, inl _) |- _ =>
           apply embed_fields_run in Hloop as [? _]
       | _ => idtac
       end.
  all: which_call Hin.
  all: split; [| exact Hnew].
  all: repeat first
         [ rewrite List.filter_app
         | rewrite app_nil_r
         | rewrite filter_embedding_calls
         | rewrite filter_embedding_fetches by assumption
         | progress cbn [List.filter is_embedding app arg_query_text] ];
       reflexivity.
Qed.

Lemma vision_vector_fields_not_iterable self messages overrides auth_claims should_stream
    calls out e :
  run env (Vision.run_until_final_call self messages overrides auth_claims should_stream)
    = (calls, out) ->
  use_vector_search overrides = true ->
  Vision.py_iter (dict_get_or overrides "vector_fields" (PyList [PyStr "embedding"]))
    = inl e ->
  (exists msg, e = TypeError msg) /\
  (forall v, out <> inr v) /\
  List.filter is_search calls = [] /\
  List.filter is_embedding calls = [] /\
  (forall request completion,
     In (Create request) calls ->
     env (Create request) = inr completion ->
     calls = [Create request] /\ out = inl e).
Proof.
  intros Hrun Hon Hiter.
  split; [exact (py_iter_raises _ _ Hiter) |].
  vision_cases env Hrun; simplify_eq.
  all: split; [discriminate |]. 
  all: split; [reflexivity |]. 
  all: split; [reflexivity |].
  all: intros request completion Hin Hcompletion; which_call Hin.
  all: try (pose proof (eq_trans (eq_sym Hreply) Hcompletion); discriminate).
  all: split; reflexivity.
Qed.
End VectorFields.

(** X4. In the vision variant with vector search on, a search that is
    reached was preceded by one embedding per entry of [vector_fields], in
    order: a text embedding of the query for the entry "embedding", an image
    embedding of the query for any other entry; the vectors passed to the
    search are the replies, in the same order. *)
Theorem vision_embeds_each_vector_field `{ChatApproach} (env : Collaborators)
    (self : Vision.Approach) (messages : list Message)
    (overrides auth_claims : gmap string PyVal) (should_stream : bool)
    (calls : list Call) (out : Exn + RunValue) (args : SearchArgs) (items : list PyVal) :
  run env (run_until_final_call (VisionVariant self) messages overrides auth_claims
             should_stream) = (calls, out) ->
  In (Search args) calls ->
  use_vector_search overrides = true ->
  Vision.py_iter (dict_get_or overrides "vector_fields" (PyList [PyStr "embedding"]))
    = inr items ->
  List.filter is_embedding calls = map (embedding_call (arg_query_text args)) items /\
  Forall2 (fun field v => embedding_reply env (arg_query_text args) field = inr v)
    items (arg_vectors args).
Proof. apply vision_vector_fields. Qed.

(** X5. In the vision variant with vector search on, a [vector_fields]
    that is neither a list nor a string (an explicit null, a number) makes
    the request fail with [TypeError] right after the query-rewriting call:
    no embedding is computed and no search is made. *)
Theorem vision_rejects_vector_fields_that_cannot_be_iterated `{ChatApproach}
    (env : Collaborators) (self : Vision.Approach) (messages : list Message)
    (overrides auth_claims : gmap string PyVal) (should_stream : bool)
    (calls : list Call) (out : Exn + RunValue) (e : Exn) :
  run env (run_until_final_call (VisionVariant self) messages overrides auth_claims
             should_stream) = (calls, out) ->
  use_vector_search overrides = true ->
  Vision.py_iter (dict_get_or overrides "vector_fields" (PyList [PyStr "embedding"]))
    = inl e ->
  (exists msg, e = TypeError msg) /\
  (forall v, out <> inr v) /\
  List.filter is_search calls = [] /\
  List.filter is_embedding calls = [] /\
  (forall request completion,
     In (Create request) calls ->
     env (Create request) = inr completion ->
     calls = [Create request] /\ out = inl e).
Proof. apply vision_vector_fields_not_iterable. Qed.

(** ** What the vision variant sends to the model *)

(** X6. What a returning run of the vision variant sends and reports: the
    data points hold the sources under "text" and the image URLs under
    "images"; the new user content is the question, then the sources part
    exactly when [gpt4v_input] is "textAndImages", "texts" or none, then one
    image part per URL of the data points.  When images are not sent there
    is no URL and no fetch; when they are, the URLs are the resolved ones
    and every result was fetched. *)
Theorem vision_user_content `{ChatApproach} (env : Collaborators)
    (self : Vision.Approach) (messages : list Message)
    (overrides auth_claims : gmap string PyVal) (should_stream : bool)
    (calls : list Call) (v : RunValue) (args : SearchArgs) (results : list Document) :
  run env (run_until_final_call (VisionVariant self) messages overrides auth_claims
             should_stream) = (calls, inr v) ->
  In (Search args) calls ->
  env (Search args) = inr results ->
  let sources := get_sources_content results (use_semantic_captions overrides) true in
  let send_text :=
    py_in (gpt4v_input overrides) [PyStr "textAndImages"; PyStr "texts"; PyNone] in
  let send_images :=
    py_in (gpt4v_input overrides) [PyStr "textAndImages"; PyStr "images"; PyNone] in
  exists question images,
    last_content messages = Some (ContentStr question) /\
    value_data_points v = {[ "text" := sources; "images" := images ]} /\
    req_messages (value_coroutine v) =
      build_messages
        {| bm_model := Vision.gpt4v_model self;
           bm_system_prompt := system_message_of overrides;
           bm_tools := None;
           bm_few_shots := None;
           bm_past_messages := all_but_last messages;
           bm_new_user_content :=
             ContentParts
               (TextPart question
                  :: (if send_text
                      then [TextPart (sources_header ++ join nl sources)]
                      else [])
                  ++ map ImagePart images);
           bm_max_tokens := Vision.chatgpt_token_limit self - 1024;
           bm_fallback_to_default := ALLOW_NON_GPT_MODELS |} /\
    (send_images = false -> images = [] /\ List.filter is_fetch calls = []) /\
    (send_images = true ->
       images = resolved_urls env results /\
       List.filter is_fetch calls = map FetchImage results).
Proof.
  intros Hrun Hin Hres. cbv zeta. unfold last_content, gpt4v_input.
  cbn [run_until_final_call] in Hrun.
  vision_cases env Hrun; simplify_eq; embed_facts env; fetch_facts env;
    this_search env Hin Hres.
  all: repeat match goal with
         | Hloop : run _ (Vision.fetch_images _ _) = (_, inr _) |- _ =>
             apply fetch_images_run in Hloop as (_ & _ & Hret);
             destruct (Hret _ eq_refl) as [-> ->]; clear Hret
         end.
  all: simpl last_content; cbn [fmap option_fmap option_map]; rewrite Hcontent.
  all: eexists question, _; split; [reflexivity |].
  all: cbn [value_data_points value_coroutine data_points req_messages app].
  all: rewrite ?image_urls_of_parts.
  all: split; [reflexivity |].
  all: split;
    [ destruct (py_in _ [PyStr "textAndImages"; PyStr "texts"; PyNone]);
      cbn [app]; rewrite ?app_nil_r; reflexivity |].
  all: split; intros Hflag; try discriminate Hflag.
  all: split; [reflexivity |].
  all: repeat first
         [ rewrite List.filter_app
         | rewrite app_nil_r
         | rewrite filter_fetch_fetches
         | rewrite filter_fetch_embeddings by assumption
         | progress cbn [List.filter is_fetch app] ];
       reflexivity.
Qed.

(** ** The two completion requests *)

Lemma deployment_or_model_not_empty (deployment : option string) (model : string) :
  model <> EmptyString -> deployment_or_model deployment model <> EmptyString.
Proof.
  intros Hmodel. unfold deployment_or_model, str_truthy.
  destruct deployment as [d |]; [| exact Hmodel].
  destruct (String.eqb d EmptyString) eqn:Hd; simpl; [exact Hmodel |].
  apply String.eqb_neq. exact Hd.
Qed.

(** X7. On every returning path of either variant the pending completion
    names the deployment if one is set and not empty, else the model (so
    never an empty name when the model has one), carries the temperature of
    the overrides or 0.3, 1024 output tokens, n = 1, no tools, the streaming
    flag and the seed of the overrides.  The query-rewriting call has the
    same seed, no [stream] argument, and tools only in the text variant. *)
Theorem completion_requests_parameters `{ChatApproach} (env : Collaborators)
    (approach : Variant) (messages : list Message)
    (overrides auth_claims : gmap string PyVal) (should_stream : bool)
    (calls : list Call) (v : RunValue) :
  run env (run_until_final_call approach messages overrides auth_claims should_stream)
    = (calls, inr v) ->
  let pending := value_coroutine v in
  req_model pending = deployment_or_model (answer_deployment approach) (answer_model approach) /\
  (answer_model approach <> EmptyString -> req_model pending <> EmptyString) /\
  req_temperature pending = default (PyFloat (3 # 10)) (overrides !! "temperature") /\
  req_max_tokens pending = 1024 /\
  req_n pending = 1 /\
  req_tools pending = None /\
  req_stream pending = Some should_stream /\
  req_seed pending = dict_get overrides "seed" /\
  (forall request,
     In (Create request) calls ->
     req_model request =
       deployment_or_model (query_deployment approach) (query_model approach) /\
     req_seed request = req_seed pending /\
     req_stream request = None /\
     req_tools request =
       match approach with
       | TextVariant _ => Some Text.tools
       | VisionVariant _ => None
       end).
Proof.
  intros Hrun pending. subst pending.
  destruct approach as [self | self]; cbn [run_until_final_call] in Hrun;
    [text_cases env Hrun | vision_cases env Hrun];
    simplify_eq; embed_facts env; fetch_facts env.
  all: cbn [value_coroutine req_model req_temperature req_max_tokens req_n req_tools
            req_stream req_seed answer_deployment answer_model query_deployment
            query_model].
  all: split; [reflexivity |].
  all: split; [apply deployment_or_model_not_empty |].
  all: repeat (split; [reflexivity |]).
  all: intros request Hin; which_call Hin; repeat split; reflexivity.
Qed.

(** ** What the coroutine does not look at *)

(** X8. The role of the last message is never examined: two message lists
    that differ only in the role of their last message give the same
    coroutine. *)
Theorem role_of_last_message_is_ignored `{ChatApproach} (approach : Variant)
    (history : list Message) (role1 role2 : string) (c : Content)
    (overrides auth_claims : gmap string PyVal) (should_stream : bool) :
  run_until_final_call approach (history ++ [mkMessage role1 c]) overrides auth_claims
    should_stream =
  run_until_final_call approach (history ++ [mkMessage role2 c]) overrides auth_claims
    should_stream.
Proof.
  destruct approach as [self | self]; cbn [run_until_final_call];
    unfold Text.run_until_final_call, Vision.run_until_final_call, all_but_last;
    rewrite !last_snoc, !removelast_last; reflexivity.
Qed.

(** X9. The claims of the caller reach the request only through
    [build_filter]: two sets of claims with the same filter give the same
    coroutine. *)
Theorem auth_claims_only_reach_the_filter `{ChatApproach} (approach : Variant)
    (messages : list Message) (overrides claims1 claims2 : gmap string PyVal)
    (should_stream : bool) :
  build_filter overrides claims1 = build_filter overrides claims2 ->
  run_until_final_call approach messages overrides claims1 should_stream =
  run_until_final_call approach messages overrides claims2 should_stream.
Proof.
  intros Hfilter.
  destruct approach as [self | self]; cbn [run_until_final_call];
    unfold Text.run_until_final_call, Vision.run_until_final_call;
    rewrite Hfilter; reflexivity.
Qed.

(** ** What the thoughts report *)

(** X10. On the grounded path the second thought reports the arguments the
    search was called with: top, filter, the two semantic flags and the
    text-search flag.  The text variant also reports the vector-search flag
    and no vector fields; the vision variant reports the vector fields of
    the overrides and no vector-search flag. *)
Theorem search_thought_reports_the_search `{ChatApproach} (env : Collaborators)
    (approach : Variant) (messages : list Message)
    (overrides auth_claims : gmap string PyVal) (should_stream : bool)
    (calls : list Call) (v : RunValue) (args : SearchArgs) (results : list Document) :
  run env (run_until_final_call approach messages overrides auth_claims should_stream)
    = (calls, inr v) ->
  In (Search args) calls ->
  env (Search args) = inr results ->
  results <> [] ->
  exists step reported,
    value_thoughts v !! 1%nat = Some step /\
    props step = Some reported /\
    reported !! "top" = Some (arg_top args) /\
    reported !! "filter" = Some (opt_str_val (arg_filter args)) /\
    reported !! "use_semantic_captions" = Some (PyBool (arg_use_semantic_captions args)) /\
    reported !! "use_semantic_ranker" = Some (PyBool (arg_use_semantic_ranker args)) /\
    reported !! "use_text_search" = Some (PyBool (arg_use_text_search args)) /\
    match approach with
    | TextVariant _ =>
        reported !! "use_vector_search" = Some (PyBool (arg_use_vector_search args)) /\
        reported !! "vector_fields" = None
    | VisionVariant _ =>
        reported !! "use_vector_search" = None /\
        reported !! "vector_fields" =
          Some (default (PyList [PyStr "embedding"]) (overrides !! "vector_fields"))
    end.
Proof.
  intros Hrun Hin Hres Hfound.
  destruct approach as [self | self]; cbn [run_until_final_call] in Hrun;
    [text_cases env Hrun | vision_cases env Hrun];
    simplify_eq; embed_facts env; fetch_facts env;
    this_search env Hin Hres; try contradiction.
  all: eexists _, _; split; [reflexivity |]; split; [reflexivity |].
  all: repeat split; reflexivity.
Qed.

(** X11. On the grounded path the first and the last thought report the
    models in use: under "model" the query model and the answer model, and
    the model name sent in the corresponding request is the "deployment"
    that the thought reports when it reports one, else that model. *)
Theorem prompt_thoughts_report_the_models `{ChatApproach} (env : Collaborators)
    (approach : Variant) (messages : list Message)
    (overrides auth_claims : gmap string PyVal) (should_stream : bool)
    (calls : list Call) (v : RunValue) (args : SearchArgs) (results : list Document) :
  run env (run_until_final_call approach messages overrides auth_claims should_stream)
    = (calls, inr v) ->
  In (Search args) calls ->
  env (Search args) = inr results ->
  results <> [] ->
  exists first final asked answered,
    value_thoughts v !! 0%nat = Some first /\
    value_thoughts v !! 3%nat = Some final /\
    props first = Some asked /\
    props final = Some answered /\
    asked !! "model" = Some (PyStr (query_model approach)) /\
    answered !! "model" = Some (PyStr (answer_model approach)) /\
    (forall request,
       In (Create request) calls ->
       req_model request = match asked !! "deployment" with
                           | Some (PyStr d) => d
                           | _ => query_model approach
                           end) /\
    req_model (value_coroutine v) = match answered !! "deployment" with
                                    | Some (PyStr d) => d
                                    | _ => answer_model approach
                                    end.
Proof.
  intros Hrun Hin Hres Hfound.
  destruct approach as [self | self]; cbn [run_until_final_call] in Hrun;
    [text_cases env Hrun | vision_cases env Hrun];
    simplify_eq; embed_facts env; fetch_facts env;
    this_search env Hin Hres; try contradiction.
  all: eexists _, _, _, _; split; [reflexivity |]; split; [reflexivity |].
  all: split; [reflexivity |]; split; [reflexivity |].
  all: cbn [value_coroutine req_model query_model answer_model].
  all: unfold model_props, deployment_or_model in *.
  all: try destruct (Text.chatgpt_deployment self) as [d |].
  all: try destruct (Vision.chatgpt_deployment self) as [d1 |].
  all: try destruct (Vision.gpt4v_deployment self) as [d2 |].
  all: repeat match goal with
         | |- context [if str_truthy ?d then _ else _] => destruct (str_truthy d)
         end.
  all: split; [reflexivity |]; split; [reflexivity |].
  all: split; [intros request Hin; which_call Hin; reflexivity | reflexivity].
Qed.

(** ** The arguments of the search *)

(** X12. The arguments of a search that is reached: [top] and the two
    minimum scores are the values of the overrides, an explicit null
    included, and 3, 0.0 and 0.0 only when the key is missing; the filter
    is the one of [build_filter]; the semantic flags are the truth values
    of their options; the query text is [get_search_query] applied to the
    reply of the query-rewriting call and the original question. *)
Theorem search_arguments_come_from_overrides `{ChatApproach} (env : Collaborators)
    (approach : Variant) (messages : list Message)
    (overrides auth_claims : gmap string PyVal) (should_stream : bool)
    (calls : list Call) (out : Exn + RunValue) (args : SearchArgs) :
  run env (run_until_final_call approach messages overrides auth_claims should_stream)
    = (calls, out) ->
  In (Search args) calls ->
  arg_top args = default (PyInt 3) (overrides !! "top") /\
  arg_minimum_search_score args =
    default (PyFloat 0) (overrides !! "minimum_search_score") /\
  arg_minimum_reranker_score args =
    default (PyFloat 0) (overrides !! "minimum_reranker_score") /\
  arg_filter args = build_filter overrides auth_claims /\
  arg_use_semantic_ranker args = py_truthy (dict_get overrides "semantic_ranker") /\
  arg_use_semantic_captions args = py_truthy (dict_get overrides "semantic_captions") /\
  arg_use_text_search args = use_text_search overrides /\
  arg_use_vector_search args = use_vector_search overrides /\
  exists request completion question,
    In (Create request) calls /\
    env (Create request) = inr completion /\
    last_content messages = Some (ContentStr question) /\
    arg_query_text args = get_search_query completion question.
Proof.
  unfold last_content. intros Hrun Hin.
  destruct approach as [self | self]; cbn [run_until_final_call] in Hrun;
    [text_cases env Hrun | vision_cases env Hrun];
    simplify_eq; embed_facts env; fetch_facts env; which_call Hin.
  all: cbn [arg_top arg_minimum_search_score arg_minimum_reranker_score arg_filter
            arg_use_semantic_ranker arg_use_semantic_captions arg_use_text_search
            arg_use_vector_search arg_query_text].
  all: unfold use_semantic_ranker, use_semantic_captions.
  all: repeat (split;
         [ first [ reflexivity
                 | destruct (py_truthy _); reflexivity ] |]).
  all: eexists _, _, question; split; [left; reflexivity |].
  all: split; [eassumption |].
  all: simpl; rewrite Hcontent; split; reflexivity.
Qed.

(** ** Data points of the text variant *)

(** X13. In the text variant a returning run has empty data points exactly
    when the search found nothing, and an empty thought trace exactly then;
    otherwise the data points hold one key, "text", with the sources. *)
Theorem text_data_points_iff_results `{ChatApproach} (env : Collaborators)
    (self : Text.Approach) (messages : list Message)
    (overrides auth_claims : gmap string PyVal) (should_stream : bool)
    (calls : list Call) (v : RunValue) (args : SearchArgs) (results : list Document) :
  run env (run_until_final_call (TextVariant self) messages overrides auth_claims
             should_stream) = (calls, inr v) ->
  In (Search args) calls ->
  env (Search args) = inr results ->
  (results = [] <-> value_data_points v = ∅) /\
  (results = [] <-> value_thoughts v = []) /\
  (results <> [] ->
     value_data_points v =
       {[ "text" := get_sources_content results (use_semantic_captions overrides) false ]}).
Proof.
  intros Hrun Hin Hres. cbn [run_until_final_call] in Hrun.
  text_cases env Hrun; simplify_eq; this_search env Hin Hres.
  all: cbn [value_data_points value_thoughts data_points thoughts].
  all: split; [split; intros Hempty; try reflexivity; try discriminate Hempty |].
  all: try (apply (f_equal (fun m : gmap string (list string) => m !! "text")) in Hempty;
            rewrite lookup_singleton_eq, lookup_empty in Hempty; discriminate Hempty).
  all: split; [split; intros Hempty; try reflexivity; discriminate Hempty |].
  all: intros Hfound; try contradiction.
  all: reflexivity.
Qed.

(** ** Streaming *)

(** Replay in the goal the replies that are known for a run. *)
Ltac replay :=
  repeat first
    [ progress cbn [run coro_bind mbind coro_mbind mret coro_mret
                    chat_completions_create compute_text_embedding
                    compute_image_embedding search fetch_image
                    get_sources_content map]
    | match goal with
      | Hreply : ?env ?c = _ |- context [match ?env ?c with _ => _ end] => rewrite Hreply
      | Hloop : run ?env ?m = _ |- context [run ?env (?m ≫= ?f)] =>
          rewrite (run_bind env m f), Hloop
      | Hloop : run ?env ?m = _ |- context [run ?env (coro_bind ?f ?m)] =>
          rewrite (run_bind' env m f), Hloop
      end ].

Section Streaming.
Context `{ChatApproach}.
Variable env : Collaborators.

Lemma text_streaming self messages overrides auth_claims s1 s2 calls out :
  run env (Text.run_until_final_call self messages overrides auth_claims s1) = (calls, out) ->
  exists out',
    run env (Text.run_until_final_call self messages overrides auth_claims s2)
      = (calls, out') /\
    match out, out' with
    | inl e, inl e' => e = e'
    | inr v, inr v' =>
        value_data_points v' = value_data_points v /\
        value_thoughts v' = value_thoughts v /\
        is_pair v' = is_pair v /\
        value_coroutine v' = with_stream s2 (value_coroutine v)
    | _, _ => False
    end.
Proof.
  intros Hrun. unfold Text.run_until_final_call at 1.
  text_cases env Hrun; simplify_eq; cbv zeta; replay.
  all: eexists; split; [reflexivity |]; try reflexivity.
  all: repeat split; reflexivity.
Qed.

Lemma vision_streaming self messages overrides auth_claims s1 s2 calls out :
  run env (Vision.run_until_final_call self messages overrides auth_claims s1) = (calls, out) ->
  exists out',
    run env (Vision.run_until_final_call self messages overrides auth_claims s2)
      = (calls, out') /\
    match out, out' with
    | inl e, inl e' => e = e'
    | inr v, inr v' =>
        value_data_points v' = value_data_points v /\
        value_thoughts v' = value_thoughts v /\
        is_pair v' = is_pair v /\
        value_coroutine v' = with_stream s2 (value_coroutine v)
    | _, _ => False
    end.
Proof.
  intros Hrun. unfold Vision.run_until_final_call at 1.
  vision_cases env Hrun; simplify_eq; cbv zeta; replay.
  all: eexists; split; [reflexivity |]; try reflexivity.
  all: repeat split; reflexivity.
Qed.
End Streaming.

(** X14. The streaming flag does not change what a request does: with
    another flag the same calls are made and the run ends alike, with the
    same data points, thoughts and shape of result; only the [stream]
    argument of the pending completion differs. *)
Theorem streaming_flag_only_marks_the_pending_completion `{ChatApproach}
    (env : Collaborators) (approach : Variant) (messages : list Message)
    (overrides auth_claims : gmap string PyVal) (s1 s2 : bool)
    (calls : list Call) (out : Exn + RunValue) :
  run env (run_until_final_call approach messages overrides auth_claims s1) = (calls, out) ->
  exists out',
    run env (run_until_final_call approach messages overrides auth_claims s2)
      = (calls, out') /\
    match out, out' with
    | inl e, inl e' => e = e'
    | inr v, inr v' =>
        value_data_points v' = value_data_points v /\
        value_thoughts v' = value_thoughts v /\
        is_pair v' = is_pair v /\
        value_coroutine v' = with_stream s2 (value_coroutine v)
    | _, _ => False
    end.
Proof.
  destruct approach as [self | self]; cbn [run_until_final_call].
  - apply text_streaming.
  - apply vision_streaming.
Qed.

(** ** Repeated runs *)

Section SameResponses.
Context `{ChatApproach}.
Variables env1 env2 : Collaborators.

(** The two runs read the same question. *)
Ltac same_question :=
  match goal with
  | Ha : content ?m = ContentStr ?a, Hb : content ?m = ContentStr ?b |- _ =>
      assert (b = a) by congruence; subst b; clear Hb
  end.

(** The query-rewriting call of the two runs got the same reply. *)
Ltac same_completion Hcreate :=
  match goal with
  | Ha : env1 (Create ?r) = inr ?a, Hb : env2 (Create ?r) = inr ?b |- _ =>
      let Hsame := fresh "Hsame" in
      assert (Hsame : env2 (Create r) = env1 (Create r)) by (apply Hcreate; in_calls);
      rewrite Ha, Hb in Hsame; injection Hsame as ->; clear Hb
  end.

(** The searches of the two runs returned the same results. *)
Ltac same_results Hsearch :=
  match goal with
  | Ha : env1 (Search ?a1) = inr ?a, Hb : env2 (Search ?a2) = inr ?b |- _ =>
      let Hsame := fresh "Hsame" in
      assert (Hsame : env2 (Search a2) = env1 (Search a1))
        by (apply Hsearch; in_calls);
      rewrite Ha, Hb in Hsame; simplify_eq
  end.

(** Two returning runs of the text variant whose query-rewriting call and
    search got the same replies report the same data points and thoughts,
    whatever the embeddings and the streaming flags. *)
Lemma text_same_responses self messages overrides auth_claims s1 s2 calls1 calls2 v1 v2 :
  run env1 (Text.run_until_final_call self messages overrides auth_claims s1)
    = (calls1, inr v1) ->
  run env2 (Text.run_until_final_call self messages overrides auth_claims s2)
    = (calls2, inr v2) ->
  (forall request, In (Create request) calls1 ->
     env2 (Create request) = env1 (Create request)) ->
  (forall args1 args2, In (Search args1) calls1 -> In (Search args2) calls2 ->
     env2 (Search args2) = env1 (Search args1)) ->
  value_data_points v2 = value_data_points v1 /\
  value_thoughts v2 = value_thoughts v1.
Proof.
  intros Hfirst Hsecond Hcreate Hsearch.
  text_cases env1 Hfirst; simplify_eq.
  all: text_cases env2 Hsecond; simplify_eq.
  all: same_question.
  all: same_completion Hcreate.
  all: same_results Hsearch.
  all: split; reflexivity.
Qed.

(** Fetches that reply alike resolve the same URLs. *)
Lemma resolved_urls_agree (results : list Document) :
  (forall doc, In doc results -> env2 (FetchImage doc) = env1 (FetchImage doc)) ->
  resolved_urls env2 results = resolved_urls env1 results.
Proof.
  intros Hfetch. unfold resolved_urls. apply list_omap_ext.
  induction results as [| doc rest IH]; constructor.
  - rewrite (Hfetch doc (or_introl eq_refl)). reflexivity.
  - apply IH. intros d Hd. apply Hfetch. right. exact Hd.
Qed.

(** The image loops of the two runs resolved the same URLs. *)
Ltac same_images Hfetch :=
  match goal with
  | Ha : run env1 (Vision.fetch_images ?r []) = (_, inr _),
    Hb : run env2 (Vision.fetch_images ?r []) = (_, inr _) |- _ =>
      apply fetch_images_run in Ha as (_ & _ & Ha);
      destruct (Ha _ eq_refl) as [-> ->];
      apply fetch_images_run in Hb as (_ & _ & Hb);
      destruct (Hb _ eq_refl) as [-> ->];
      rewrite (resolved_urls_agree r)
        by (let doc := fresh "doc" in
            let Hdoc := fresh "Hdoc" in
            intros doc Hdoc; apply Hfetch;
            pose proof (in_map FetchImage _ _ Hdoc); in_calls)
  end.

(** The same for the vision variant, where the image fetches count too. *)
Lemma vision_same_responses self messages overrides auth_claims s1 s2 calls1 calls2 v1 v2 :
  run env1 (Vision.run_until_final_call self messages overrides auth_claims s1)
    = (calls1, inr v1) ->
  run env2 (Vision.run_until_final_call self messages overrides auth_claims s2)
    = (calls2, inr v2) ->
  (forall request, In (Create request) calls1 ->
     env2 (Create request) = env1 (Create request)) ->
  (forall args1 args2, In (Search args1) calls1 -> In (Search args2) calls2 ->
     env2 (Search args2) = env1 (Search args1)) ->
  (forall doc, In (FetchImage doc) calls1 ->
     env2 (FetchImage doc) = env1 (FetchImage doc)) ->
  value_data_points v2 = value_data_points v1 /\
  value_thoughts v2 = value_thoughts v1.
Proof.
  intros Hfirst Hsecond Hcreate Hsearch Hfetch.
  vision_cases env1 Hfirst; simplify_eq.
  all: vision_cases env2 Hsecond; simplify_eq.
  all: same_question.
  all: same_completion Hcreate.
  all: same_results Hsearch.
  all: try same_images Hfetch.
  all: split; reflexivity.
Qed.
End SameResponses.

(** The first run fixes the calls and the ending of the second, whatever
    the streaming flags. *)
Lemma second_run_ends_alike `{ChatApproach} (env1 env2 : Collaborators)
    (approach : Variant) (messages : list Message)
    (overrides auth_claims : gmap string PyVal) (stream1 stream2 : bool)
    (calls : list Call) (out : Exn + RunValue) :
  run env1 (run_until_final_call approach messages overrides auth_claims stream1)
    = (calls, out) ->
  Forall (same_reply env1 env2) calls ->
  exists out',
    run env2 (run_until_final_call approach messages overrides auth_claims stream2)
      = (calls, out') /\
    match out, out' with
    | inl e, inl e' => e = e'
    | inr v, inr v' =>
        value_data_points v' = value_data_points v /\
        value_thoughts v' = value_thoughts v /\
        is_pair v' = is_pair v /\
        value_coroutine v' = with_stream stream2 (value_coroutine v)
    | _, _ => False
    end.
Proof.
  intros Hfirst Hsame.
  assert (Hagree : run env2 (run_until_final_call approach messages overrides auth_claims
                               stream1) = (calls, out)).
  { rewrite <- Hfirst. symmetry. apply run_agree.
    unfold calls_of. rewrite Hfirst. exact Hsame. }
  destruct approach as [self | self]; cbn [run_until_final_call] in *.
  - exact (text_streaming env2 _ _ _ _ _ _ _ _ Hagree).
  - exact (vision_streaming env2 _ _ _ _ _ _ _ _ Hagree).
Qed.

(** C9. Two runs of [run_until_final_call], of either variant, on the same
    messages, overrides and claims, whatever their streaming flags.  When
    the collaborators of the second run give the same reply to every call
    the first run makes, the second run makes the same calls and ends
    alike: the same exception, or the same data points, thoughts and shape
    of result, with a pending completion that differs in its [stream]
    argument at most.  For two runs that return, the replies of the
    completion, the search and the image fetches are all that matters: if
    these agree the data points and the thoughts are the same, even when
    the embeddings are not. *)
Theorem same_replies_same_result `{ChatApproach} (env1 env2 : Collaborators)
    (approach : Variant) (messages : list Message)
    (overrides auth_claims : gmap string PyVal) (stream1 stream2 : bool)
    (calls1 calls2 : list Call) (out1 out2 : Exn + RunValue) :
  run env1 (run_until_final_call approach messages overrides auth_claims stream1)
    = (calls1, out1) ->
  run env2 (run_until_final_call approach messages overrides auth_claims stream2)
    = (calls2, out2) ->
  (Forall (same_reply env1 env2) calls1 ->
   calls2 = calls1 /\
   match out1, out2 with
   | inl e1, inl e2 => e2 = e1
   | inr v1, inr v2 =>
       value_data_points v2 = value_data_points v1 /\
       value_thoughts v2 = value_thoughts v1 /\
       is_pair v2 = is_pair v1 /\
       value_coroutine v2 = with_stream stream2 (value_coroutine v1)
   | _, _ => False
   end) /\
  (forall v1 v2,
     out1 = inr v1 ->
     out2 = inr v2 ->
     (forall request,
        In (Create request) calls1 -> env2 (Create request) = env1 (Create request)) ->
     (forall args1 args2,
        In (Search args1) calls1 -> In (Search args2) calls2 ->
        env2 (Search args2) = env1 (Search args1)) ->
     (forall result,
        In (FetchImage result) calls1 ->
        env2 (FetchImage result) = env1 (FetchImage result)) ->
     value_data_points v2 = value_data_points v1 /\
     value_thoughts v2 = value_thoughts v1).
Proof.
  intros Hfirst Hsecond. split.
  - intros Hsame.
    destruct (second_run_ends_alike env1 env2 _ _ _ _ _ stream2 _ _ Hfirst Hsame)
      as (out' & Hrun & Hout).
    rewrite Hrun in Hsecond. injection Hsecond as <- <-. split; [reflexivity |].
    destruct out1 as [e1 | v1], out' as [e' | v']; auto.
  - intros v1 v2 -> -> Hcreate Hsearch Hfetch.
    destruct approach as [self | self]; cbn [run_until_final_call] in *.
    + exact (text_same_responses env1 env2 _ _ _ _ _ _ _ _ _ _
               Hfirst Hsecond Hcreate Hsearch).
    + exact (vision_same_responses env1 env2 _ _ _ _ _ _ _ _ _ _
               Hfirst Hsecond Hcreate Hsearch Hfetch).
Qed.

(** ** Token budgets of a constructed orchestrator *)

(** X15. A vision orchestrator built by [__init__] budgets both prompts
    from the token limit of [gpt4v_model]: the query prompt, built for
    [chatgpt_model], within that limit minus 100, and the answer prompt,
    built for [gpt4v_model], within that limit minus 1024. *)
Theorem vision_budgets_come_from_gpt4v_model `{ChatApproach}
    (get_token_limit : string -> bool -> Z) (env : Collaborators)
    (chatgpt_model : string) (chatgpt_deployment gpt4v_deployment : option string)
    (gpt4v_model : string) (messages : list Message)
    (overrides auth_claims : gmap string PyVal) (should_stream : bool)
    (calls : list Call) (out : Exn + RunValue) :
  let self :=
    vision__init__ get_token_limit chatgpt_model chatgpt_deployment gpt4v_deployment
      gpt4v_model in
  let limit := get_token_limit gpt4v_model ALLOW_NON_GPT_MODELS in
  run env (run_until_final_call (VisionVariant self) messages overrides auth_claims
             should_stream) = (calls, out) ->
  (forall request,
     In (Create request) calls ->
     exists question,
       last_content messages = Some (ContentStr question) /\
       req_messages request =
         build_messages
           {| bm_model := chatgpt_model;
              bm_system_prompt := query_prompt_template;
              bm_tools := None;
              bm_few_shots := Some query_prompt_few_shots;
              bm_past_messages := all_but_last messages;
              bm_new_user_content :=
                ContentStr ("Generate search query for: " ++ question);
              bm_max_tokens := limit - 100;
              bm_fallback_to_default := false |}) /\
  (forall v,
     out = inr v ->
     exists user_content,
       req_messages (value_coroutine v) =
         build_messages
           {| bm_model := gpt4v_model;
              bm_system_prompt := system_message_of overrides;
              bm_tools := None;
              bm_few_shots := None;
              bm_past_messages := all_but_last messages;
              bm_new_user_content := user_content;
              bm_max_tokens := limit - 1024;
              bm_fallback_to_default := ALLOW_NON_GPT_MODELS |}).
Proof.
  intros self limit Hrun. subst self limit. unfold last_content.
  cbn [run_until_final_call] in Hrun.
  vision_cases env Hrun; simplify_eq; embed_facts env; fetch_facts env.
  all: simpl; rewrite ?Hcontent.
  all: split;
    [ intros request Hin; which_call Hin; eexists; split; reflexivity
    | intros v' Hv; simplify_eq; try (eexists; reflexivity) ].
Qed.

(** X16. A text orchestrator built by [__init__] builds both prompts for
    [chatgpt_model] and budgets them from the token limit of that model:
    the query prompt within the limit minus 100, the answer prompt within
    the limit minus 1024, on the no-sources path as on the grounded one. *)
Theorem text_budgets_come_from_chatgpt_model `{ChatApproach}
    (get_token_limit : string -> bool -> Z) (env : Collaborators)
    (chatgpt_model : string) (chatgpt_deployment : option string)
    (messages : list Message) (overrides auth_claims : gmap string PyVal)
    (should_stream : bool) (calls : list Call) (out : Exn + RunValue) :
  let self := text__init__ get_token_limit chatgpt_model chatgpt_deployment in
  let limit := get_token_limit chatgpt_model ALLOW_NON_GPT_MODELS in
  run env (run_until_final_call (TextVariant self) messages overrides auth_claims
             should_stream) = (calls, out) ->
  (forall request,
     In (Create request) calls ->
     exists question,
       last_content messages = Some (ContentStr question) /\
       req_messages request =
         build_messages
           {| bm_model := chatgpt_model;
              bm_system_prompt := query_prompt_template;
              bm_tools := Some Text.tools;
              bm_few_shots := Some query_prompt_few_shots;
              bm_past_messages := all_but_last messages;
              bm_new_user_content :=
                ContentStr ("Generate search query for: " ++ question);
              bm_max_tokens := limit - 100;
              bm_fallback_to_default := ALLOW_NON_GPT_MODELS |}) /\
  (forall v,
     out = inr v ->
     exists user_content,
       req_messages (value_coroutine v) =
         build_messages
           {| bm_model := chatgpt_model;
              bm_system_prompt := system_message_of overrides;
              bm_tools := None;
              bm_few_shots := None;
              bm_past_messages := all_but_last messages;
              bm_new_user_content := user_content;
              bm_max_tokens := limit - 1024;
              bm_fallback_to_default := ALLOW_NON_GPT_MODELS |}).
Proof.
  intros self limit Hrun. subst self limit. unfold last_content.
  cbn [run_until_final_call] in Hrun.
  text_cases env Hrun; simplify_eq.
  all: simpl; rewrite ?Hcontent.
  all: split;
    [ intros request Hin; which_call Hin; eexists; split; reflexivity
    | intros v' Hv; simplify_eq; try (eexists; reflexivity) ].
Qed.

(** ** Worked requests for the properties above *)

Lemma calls_follow_protocol_witness :
  let env := Fixtures.collaborators [Fixtures.policy; Fixtures.faq] in
  let coroutine :=
    run_until_final_call (H := Fixtures.base) (VisionVariant Fixtures.vision_approach)
      Fixtures.question ∅ ∅ false in
  follows_protocol (calls_of env coroutine) /\ length (calls_of env coroutine) = 5%nat.
Proof.
  intros env coroutine. split; [| reflexivity].
  exact (proj1 (calls_follow_protocol (H := Fixtures.base) env
                  (VisionVariant Fixtures.vision_approach) Fixtures.question ∅ ∅ false
                  (calls_of env coroutine) (outcome_of env coroutine) eq_refl)).
Defined.

Lemma final_completion_is_not_awaited_witness :
  let env := Fixtures.collaborators [Fixtures.policy] in
  let coroutine :=
    run_until_final_call (H := Fixtures.base) (TextVariant Fixtures.text_approach)
      Fixtures.question ∅ ∅ false in
  exists v,
    outcome_of env coroutine = inr v /\
    ~ In (Create (value_coroutine v)) (calls_of env coroutine).
Proof.
  intros env coroutine. eexists. split; [reflexivity |].
  edestruct (final_completion_is_not_awaited (H := Fixtures.base) env
               (TextVariant Fixtures.text_approach) Fixtures.question ∅ ∅ false
               (calls_of env coroutine))
    as [Hleft _].
  - reflexivity.
  - exact Hleft.
Defined.

Lemma how_a_request_ends_witness :
  let coroutine :=
    run_until_final_call (H := Fixtures.base) (TextVariant Fixtures.text_approach)
      Fixtures.question ∅ ∅ false in
  outcome_of Fixtures.search_down coroutine = inl (UpstreamError "503 Service Unavailable") /\
  exists c,
    last (calls_of Fixtures.search_down coroutine) = Some c /\
    Fixtures.search_down c = inl "503 Service Unavailable".
Proof.
  intros coroutine. split; [reflexivity |].
  exact (how_a_request_ends (H := Fixtures.base) Fixtures.search_down
           (TextVariant Fixtures.text_approach) Fixtures.question ∅ ∅ false
           (calls_of Fixtures.search_down coroutine)
           (inl (UpstreamError "503 Service Unavailable")) eq_refl).
Defined.

Lemma vision_embeds_each_vector_field_witness :
  let env := Fixtures.collaborators [Fixtures.policy] in
  let overrides : gmap string PyVal :=
    {[ "vector_fields" := PyList [PyStr "embedding"; PyStr "imageEmbedding"] ]} in
  let coroutine :=
    run_until_final_call (H := Fixtures.base) (VisionVariant Fixtures.vision_approach)
      Fixtures.question overrides ∅ false in
  List.filter is_embedding (calls_of env coroutine) =
    [EmbedText "return policy"; EmbedImage "return policy"].
Proof.
  intros env overrides coroutine.
  edestruct (vision_embeds_each_vector_field (H := Fixtures.base) env
               Fixtures.vision_approach Fixtures.question overrides ∅ false
               (calls_of env coroutine) (outcome_of env coroutine))
    as [Hcalls _].
  - reflexivity.
  - right. right. right. left. reflexivity.
  - reflexivity.
  - reflexivity.
  - exact Hcalls.
Defined.

Lemma vision_rejects_vector_fields_that_cannot_be_iterated_witness :
  let env := Fixtures.collaborators [Fixtures.policy] in
  let overrides : gmap string PyVal := {[ "vector_fields" := PyNone ]} in
  let coroutine :=
    run_until_final_call (H := Fixtures.base) (VisionVariant Fixtures.vision_approach)
      Fixtures.question overrides ∅ false in
  exists request,
    calls_of env coroutine = [Create request] /\
    outcome_of env coroutine = inl (TypeError "object is not iterable").
Proof.
  intros env overrides coroutine.
  destruct (vision_rejects_vector_fields_that_cannot_be_iterated (H := Fixtures.base) env
              Fixtures.vision_approach Fixtures.question overrides ∅ false
              (calls_of env coroutine) (outcome_of env coroutine)
              (TypeError "object is not iterable") eq_refl eq_refl eq_refl)
    as (_ & _ & _ & _ & Hfirst).
  eexists. eapply Hfirst; [left; reflexivity | reflexivity].
Defined.

Lemma vision_user_content_witness :
  let env := Fixtures.collaborators [Fixtures.policy] in
  let overrides : gmap string PyVal := {[ "gpt4v_input" := PyStr "texts" ]} in
  let coroutine :=
    run_until_final_call (H := Fixtures.base) (VisionVariant Fixtures.vision_approach)
      Fixtures.question overrides ∅ false in
  exists v,
    outcome_of env coroutine = inr v /\
    value_data_points v !! "images" = Some [] /\
    List.filter is_fetch (calls_of env coroutine) = [].
Proof.
  intros env overrides coroutine. eexists. split; [reflexivity |].
  edestruct (vision_user_content (H := Fixtures.base) env Fixtures.vision_approach
               Fixtures.question overrides ∅ false (calls_of env coroutine))
    as (question & images & _ & Hdp & _ & Hoff & _).
  - reflexivity.
  - right. right. left. reflexivity.
  - reflexivity.
  - destruct (Hoff eq_refl) as [Himages Hfetch].
    split; [rewrite Hdp, Himages; reflexivity | exact Hfetch].
Defined.

Lemma completion_requests_parameters_witness :
  let env := Fixtures.collaborators [] in
  let overrides : gmap string PyVal := {[ "seed" := PyInt 7 ]} in
  let coroutine :=
    run_until_final_call (H := Fixtures.base) (TextVariant Fixtures.text_approach)
      Fixtures.question overrides ∅ true in
  exists v,
    outcome_of env coroutine = inr v /\
    req_model (value_coroutine v) = "chat" /\
    req_temperature (value_coroutine v) = PyFloat (3 # 10) /\
    req_max_tokens (value_coroutine v) = 1024 /\
    req_seed (value_coroutine v) = PyInt 7.
Proof.
  intros env overrides coroutine. eexists. split; [reflexivity |].
  edestruct (completion_requests_parameters (H := Fixtures.base) env
               (TextVariant Fixtures.text_approach) Fixtures.question overrides ∅ true
               (calls_of env coroutine))
    as (Hmodel & _ & Htemperature & Htokens & _ & _ & _ & Hseed & _).
  - reflexivity.
  - split; [exact Hmodel |]. split; [exact Htemperature |].
    split; [exact Htokens | exact Hseed].
Defined.

Lemma auth_claims_only_reach_the_filter_witness :
  run_until_final_call (H := Fixtures.base) (TextVariant Fixtures.text_approach)
    Fixtures.question ∅ ∅ false =
  run_until_final_call (H := Fixtures.base) (TextVariant Fixtures.text_approach)
    Fixtures.question ∅ {[ "oid" := PyStr "user-1" ]} false.
Proof.
  apply (auth_claims_only_reach_the_filter (H := Fixtures.base)). reflexivity.
Defined.

Lemma search_thought_reports_the_search_witness :
  let env := Fixtures.collaborators [Fixtures.policy] in
  let overrides : gmap string PyVal := {[ "top" := PyInt 5 ]} in
  let coroutine :=
    run_until_final_call (H := Fixtures.base) (TextVariant Fixtures.text_approach)
      Fixtures.question overrides ∅ false in
  exists v step reported,
    outcome_of env coroutine = inr v /\
    value_thoughts v !! 1%nat = Some step /\
    props step = Some reported /\
    reported !! "top" = Some (PyInt 5).
Proof.
  intros env overrides coroutine.
  edestruct (search_thought_reports_the_search (H := Fixtures.base) env
               (TextVariant Fixtures.text_approach) Fixtures.question overrides ∅ false
               (calls_of env coroutine))
    as (step & reported & Hstep & Hprops & Htop & _).
  - reflexivity.
  - right. right. left. reflexivity.
  - reflexivity.
  - discriminate.
  - eexists _, step, reported. split; [reflexivity |].
    split; [exact Hstep |]. split; [exact Hprops | exact Htop].
Defined.

Lemma prompt_thoughts_report_the_models_witness :
  let env := Fixtures.collaborators [Fixtures.policy] in
  let coroutine :=
    run_until_final_call (H := Fixtures.base) (VisionVariant Fixtures.vision_approach)
      Fixtures.question ∅ ∅ false in
  exists v final answered,
    outcome_of env coroutine = inr v /\
    value_thoughts v !! 3%nat = Some final /\
    props final = Some answered /\
    answered !! "model" = Some (PyStr "gpt-4o").
Proof.
  intros env coroutine.
  edestruct (prompt_thoughts_report_the_models (H := Fixtures.base) env
               (VisionVariant Fixtures.vision_approach) Fixtures.question ∅ ∅ false
               (calls_of env coroutine))
    as (first & final & asked & answered & _ & Hfinal & _ & Hprops & _ & Hmodel & _).
  - reflexivity.
  - right. right. left. reflexivity.
  - reflexivity.
  - discriminate.
  - eexists _, final, answered. split; [reflexivity |].
    split; [exact Hfinal |]. split; [exact Hprops | exact Hmodel].
Defined.

Lemma search_arguments_come_from_overrides_witness :
  let env := Fixtures.collaborators [Fixtures.policy] in
  let overrides : gmap string PyVal :=
    {[ "top" := PyNone; "retrieval_mode" := PyStr "text" ]} in
  let coroutine :=
    run_until_final_call (H := Fixtures.base) (TextVariant Fixtures.text_approach)
      Fixtures.question overrides ∅ false in
  exists args,
    In (Search args) (calls_of env coroutine) /\
    arg_top args = PyNone /\
    arg_minimum_search_score args = PyFloat 0 /\
    arg_query_text args = "return policy".
Proof.
  intros env overrides coroutine. eexists. split; [right; left; reflexivity |].
  edestruct (search_arguments_come_from_overrides (H := Fixtures.base) env
               (TextVariant Fixtures.text_approach) Fixtures.question overrides ∅ false
               (calls_of env coroutine) (outcome_of env coroutine))
    as (Htop & Hscore & _).
  - reflexivity.
  - right. left. reflexivity.
  - split; [exact Htop |]. split; [exact Hscore | reflexivity].
Defined.

Lemma text_data_points_iff_results_witness :
  let env := Fixtures.collaborators [Fixtures.policy; Fixtures.faq] in
  let coroutine :=
    run_until_final_call (H := Fixtures.base) (TextVariant Fixtures.text_approach)
      Fixtures.question ∅ ∅ false in
  exists v,
    outcome_of env coroutine = inr v /\
    value_data_points v <> ∅ /\
    value_thoughts v <> [].
Proof.
  intros env coroutine. eexists. split; [reflexivity |].
  edestruct (text_data_points_iff_results (H := Fixtures.base) env
               Fixtures.text_approach Fixtures.question ∅ ∅ false
               (calls_of env coroutine))
    as ([_ Hdp] & [_ Hthoughts] & _).
  - reflexivity.
  - right. right. left. reflexivity.
  - reflexivity.
  - split; intros Hempty; [discriminate (Hdp Hempty) | discriminate (Hthoughts Hempty)].
Defined.

Lemma streaming_flag_only_marks_the_pending_completion_witness :
  let env := Fixtures.collaborators [Fixtures.policy] in
  calls_of env
    (run_until_final_call (H := Fixtures.base) (VisionVariant Fixtures.vision_approach)
       Fixtures.question ∅ ∅ true) =
  calls_of env
    (run_until_final_call (H := Fixtures.base) (VisionVariant Fixtures.vision_approach)
       Fixtures.question ∅ ∅ false).
Proof.
  intros env.
  edestruct (streaming_flag_only_marks_the_pending_completion (H := Fixtures.base) env
               (VisionVariant Fixtures.vision_approach) Fixtures.question ∅ ∅ true false
               (calls_of env
                  (run_until_final_call (H := Fixtures.base)
                     (VisionVariant Fixtures.vision_approach) Fixtures.question ∅ ∅ true)))
    as (out' & Hrun & _).
  - reflexivity.
  - unfold calls_of at 2. rewrite Hrun. reflexivity.
Defined.

Lemma vision_budgets_come_from_gpt4v_model_witness :
  let env := Fixtures.collaborators [Fixtures.policy] in
  let self := vision__init__ (H := Fixtures.base) token_limits "gpt-35-turbo" None None "gpt-4o" in
  let coroutine :=
    run_until_final_call (H := Fixtures.base) (VisionVariant self)
      Fixtures.question ∅ ∅ false in
  exists request,
    In (Create request) (calls_of env coroutine) /\
    req_messages request =
      build_messages (ChatApproach := Fixtures.base)
        {| bm_model := "gpt-35-turbo";
           bm_system_prompt := "Rewrite the question as a search query.";
           bm_tools := None;
           bm_few_shots := Some [];
           bm_past_messages := [];
           bm_new_user_content :=
             ContentStr "Generate search query for: What is the return policy?";
           bm_max_tokens := 127900;
           bm_fallback_to_default := false |}.
Proof.
  intros env self coroutine. eexists. split; [left; reflexivity |].
  edestruct (vision_budgets_come_from_gpt4v_model (H := Fixtures.base) token_limits env
               "gpt-35-turbo" None None "gpt-4o" Fixtures.question ∅ ∅ false
               (calls_of env coroutine) (outcome_of env coroutine))
    as [Hquery _].
  - vm_compute. reflexivity.
  - edestruct Hquery as (question & Hquestion & Hprompt); [left; reflexivity |].
    injection Hquestion as <-. exact Hprompt.
Defined.

Lemma text_budgets_come_from_chatgpt_model_witness :
  let env := Fixtures.collaborators [] in
  let self := text__init__ (H := Fixtures.base) token_limits "gpt-35-turbo" (Some "chat") in
  let coroutine :=
    run_until_final_call (H := Fixtures.base) (TextVariant self)
      Fixtures.question ∅ ∅ false in
  exists v,
    outcome_of env coroutine = inr v /\
    req_messages (value_coroutine v) =
      build_messages (ChatApproach := Fixtures.base)
        {| bm_model := "gpt-35-turbo";
           bm_system_prompt := "You are an assistant. ";
           bm_tools := None;
           bm_few_shots := None;
           bm_past_messages := [];
           bm_new_user_content := ContentStr "What is the return policy?";
           bm_max_tokens := 2976;
           bm_fallback_to_default := true |}.
Proof.
  intros env self coroutine. eexists. split; [reflexivity |].
  edestruct (text_budgets_come_from_chatgpt_model (H := Fixtures.base) token_limits env
               "gpt-35-turbo" (Some "chat") Fixtures.question ∅ ∅ false
               (calls_of env coroutine) (outcome_of env coroutine))
    as [_ Hanswer].
  - vm_compute. reflexivity.
  - reflexivity.
Defined.

Lemma same_replies_same_result_witness :
  let env1 := Fixtures.collaborators [Fixtures.policy] in
  let env2 := Fixtures.no_image_embedding [Fixtures.policy] in
  let env3 := Fixtures.other_embeddings [Fixtures.policy] in
  let first :=
    run_until_final_call (H := Fixtures.base) (VisionVariant Fixtures.vision_approach)
      Fixtures.question ∅ ∅ false in
  let second :=
    run_until_final_call (H := Fixtures.base) (VisionVariant Fixtures.vision_approach)
      Fixtures.question ∅ ∅ true in
  env2 (EmbedImage "return policy") <> env1 (EmbedImage "return policy") /\
  env3 (EmbedText "return policy") <> env1 (EmbedText "return policy") /\
  exists v1 v2 v3,
    outcome_of env1 first = inr v1 /\
    outcome_of env2 second = inr v2 /\
    outcome_of env3 second = inr v3 /\
    calls_of env2 second = calls_of env1 first /\
    value_data_points v2 = value_data_points v1 /\
    value_thoughts v2 = value_thoughts v1 /\
    value_data_points v3 = value_data_points v1 /\
    value_thoughts v3 = value_thoughts v1.
Proof.
  intros env1 env2 env3 first second.
  split; [discriminate |]. split; [discriminate |].
  destruct (same_replies_same_result (H := Fixtures.base) env1 env2
              (VisionVariant Fixtures.vision_approach) Fixtures.question ∅ ∅ false true
              (calls_of env1 first) (calls_of env2 second)
              (outcome_of env1 first) (outcome_of env2 second)
              (surjective_pairing _) (surjective_pairing _)) as [Halike _].
  destruct Halike as [Hcalls Hout]; [vm_compute; repeat constructor |].
  destruct (same_replies_same_result (H := Fixtures.base) env1 env3
              (VisionVariant Fixtures.vision_approach) Fixtures.question ∅ ∅ false true
              (calls_of env1 first) (calls_of env3 second)
              (outcome_of env1 first) (outcome_of env3 second)
              (surjective_pairing _) (surjective_pairing _)) as [_ Hresponses].
  destruct (outcome_of env1 first) as [e1 | v1] eqn:Hfirst;
    [vm_compute in Hfirst; discriminate Hfirst |].
  destruct (outcome_of env2 second) as [e2 | v2] eqn:Hsecond; [contradiction |].
  destruct (outcome_of env3 second) as [e3 | v3] eqn:Hthird;
    [vm_compute in Hthird; discriminate Hthird |].
  destruct Hout as (Hdp & Hth & _).
  destruct (Hresponses v1 v3 eq_refl eq_refl) as [Hdp' Hth'].
  - intros request _. reflexivity.
  - intros args1 args2 _ _. reflexivity.
  - intros result _. reflexivity.
  - exists v1, v2, v3. auto 10.
Defined.
